(** * The upload server of [scripts/claude-upload-server/server.py]

    A shallow embedding of the request handlers [UploadHandler.do_GET] and
    [UploadHandler.do_POST], of the library functions they call
    ([re.sub], [os.path.splitext], [datetime.strftime], [pathlib]'s path
    join, [cgi.FieldStorage]'s lookup) and of the part of the operating
    system they act on (the storage directory, the clock, I/O failures). *)

From Stdlib Require Import ZArith NArith List Ascii String Permutation Sorted.
From Stdlib Require Import Strings.Byte DecimalString.
From stdpp Require Import gmap list.

Local Open Scope N_scope.

(* ===================================================================== *)
(** ** Python strings *)
(* ===================================================================== *)

(** A Python [str] is a sequence of Unicode code points. *)
Abbreviation char := N (only parsing).
Abbreviation str := (list N) (only parsing).

(** The code points of an ASCII literal. *)
Definition py (s : string) : str :=
  List.map N_of_ascii (list_ascii_of_string s).

Definition ch (a : ascii) : char := N_of_ascii a.

(** [str(n)] for a non-negative integer. *)
Definition decimal (n : N) : str :=
  py (NilZero.string_of_uint (N.to_uint n)).

(** One decimal digit, and the zero-padded fields of [strftime]. *)
Definition digit (n : N) : char := 48 + n mod 10.
Definition zpad2 (n : N) : str := [digit (n / 10); digit n].
Definition zpad4 (n : N) : str :=
  [digit (n / 1000); digit (n / 100); digit (n / 10); digit n].

(** [needle in hay] on strings. *)
Fixpoint startswith (s prefix : str) {struct prefix} : bool :=
  match prefix, s with
  | [], _ => true
  | p :: prefix', c :: s' => (c =? p) && startswith s' prefix'
  | _ :: _, [] => false
  end.

Fixpoint str_contains (needle hay : str) : bool :=
  startswith hay needle ||
  match hay with
  | [] => false
  | _ :: hay' => str_contains needle hay'
  end.

(** [s.rfind(c)] for a one-character [c]: the highest index, or [-1]. *)
Fixpoint rfind (c : char) (s : str) : Z :=
  match s with
  | [] => (-1)%Z
  | x :: s' =>
      let r := rfind c s' in
      if (0 <=? r)%Z then (r + 1)%Z else if x =? c then 0%Z else (-1)%Z
  end.

(** [s.split(sep)] for a one-character [sep]. *)
Fixpoint split (sep : char) (s : str) : list str :=
  match s with
  | [] => [[]]
  | c :: s' =>
      if c =? sep then [] :: split sep s'
      else match split sep s' with
           | [] => [[c]]
           | w :: ws => (c :: w) :: ws
           end
  end.

(** [sep.join(parts)]. *)
Fixpoint join (sep : str) (l : list str) : str :=
  match l with
  | [] => []
  | [w] => w
  | w :: l' => w ++ sep ++ join sep l'
  end.

Definition str_eqb (a b : str) : bool := bool_decide (a = b).

(* ===================================================================== *)
(** ** The Unicode database: [str.isalnum] *)
(* ===================================================================== *)

Module Unicode.

(** The code points [c] with [chr(c).isalnum()], as closed ranges
    (Unicode 14.0.0, the database of CPython 3.11). The properties below
    read the table on ASCII and at U+00E9 only. *)
Definition alnum_ranges : list (N * N) :=
  [(48, 57); (65, 90); (97, 122); (170, 170); (178, 179); (181, 181);
   (185, 186); (188, 190); (192, 214); (216, 246); (248, 705); (710, 721);
   (736, 740); (748, 748); (750, 750); (880, 884); (886, 887); (890, 893);
   (895, 895); (902, 902); (904, 906); (908, 908); (910, 929); (931, 1013);
   (1015, 1153); (1162, 1327); (1329, 1366); (1369, 1369); (1376, 1416);
   (1488, 1514); (1519, 1522); (1568, 1610); (1632, 1641); (1646, 1647);
   (1649, 1747); (1749, 1749); (1765, 1766); (1774, 1788); (1791, 1791);
   (1808, 1808); (1810, 1839); (1869, 1957); (1969, 1969); (1984, 2026);
   (2036, 2037); (2042, 2042); (2048, 2069); (2074, 2074); (2084, 2084);
   (2088, 2088); (2112, 2136); (2144, 2154); (2160, 2183); (2185, 2190);
   (2208, 2249); (2308, 2361); (2365, 2365); (2384, 2384); (2392, 2401);
   (2406, 2415); (2417, 2432); (2437, 2444); (2447, 2448); (2451, 2472);
   (2474, 2480); (2482, 2482); (2486, 2489); (2493, 2493); (2510, 2510);
   (2524, 2525); (2527, 2529); (2534, 2545); (2548, 2553); (2556, 2556);
   (2565, 2570); (2575, 2576); (2579, 2600); (2602, 2608); (2610, 2611);
   (2613, 2614); (2616, 2617); (2649, 2652); (2654, 2654); (2662, 2671);
   (2674, 2676); (2693, 2701); (2703, 2705); (2707, 2728); (2730, 2736);
   (2738, 2739); (2741, 2745); (2749, 2749); (2768, 2768); (2784, 2785);
   (2790, 2799); (2809, 2809); (2821, 2828); (2831, 2832); (2835, 2856);
   (2858, 2864); (2866, 2867); (2869, 2873); (2877, 2877); (2908, 2909);
   (2911, 2913); (2918, 2927); (2929, 2935); (2947, 2947); (2949, 2954);
   (2958, 2960); (2962, 2965); (2969, 2970); (2972, 2972); (2974, 2975);
   (2979, 2980); (2984, 2986); (2990, 3001); (3024, 3024); (3046, 3058);
   (3077, 3084); (3086, 3088); (3090, 3112); (3114, 3129); (3133, 3133);
   (3160, 3162); (3165, 3165); (3168, 3169); (3174, 3183); (3192, 3198);
   (3200, 3200); (3205, 3212); (3214, 3216); (3218, 3240); (3242, 3251);
   (3253, 3257); (3261, 3261); (3293, 3294); (3296, 3297); (3302, 3311);
   (3313, 3314); (3332, 3340); (3342, 3344); (3346, 3386); (3389, 3389);
   (3406, 3406); (3412, 3414); (3416, 3425); (3430, 3448); (3450, 3455);
   (3461, 3478); (3482, 3505); (3507, 3515); (3517, 3517); (3520, 3526);
   (3558, 3567); (3585, 3632); (3634, 3635); (3648, 3654); (3664, 3673);
   (3713, 3714); (3716, 3716); (3718, 3722); (3724, 3747); (3749, 3749);
   (3751, 3760); (3762, 3763); (3773, 3773); (3776, 3780); (3782, 3782);
   (3792, 3801); (3804, 3807); (3840, 3840); (3872, 3891); (3904, 3911);
   (3913, 3948); (3976, 3980); (4096, 4138); (4159, 4169); (4176, 4181);
   (4186, 4189); (4193, 4193); (4197, 4198); (4206, 4208); (4213, 4225);
   (4238, 4238); (4240, 4249); (4256, 4293); (4295, 4295); (4301, 4301);
   (4304, 4346); (4348, 4680); (4682, 4685); (4688, 4694); (4696, 4696);
   (4698, 4701); (4704, 4744); (4746, 4749); (4752, 4784); (4786, 4789);
   (4792, 4798); (4800, 4800); (4802, 4805); (4808, 4822); (4824, 4880);
   (4882, 4885); (4888, 4954); (4969, 4988); (4992, 5007); (5024, 5109);
   (5112, 5117); (5121, 5740); (5743, 5759); (5761, 5786); (5792, 5866);
   (5870, 5880); (5888, 5905); (5919, 5937); (5952, 5969); (5984, 5996);
   (5998, 6000); (6016, 6067); (6103, 6103); (6108, 6108); (6112, 6121);
   (6128, 6137); (6160, 6169); (6176, 6264); (6272, 6276); (6279, 6312);
   (6314, 6314); (6320, 6389); (6400, 6430); (6470, 6509); (6512, 6516);
   (6528, 6571); (6576, 6601); (6608, 6618); (6656, 6678); (6688, 6740);
   (6784, 6793); (6800, 6809); (6823, 6823); (6917, 6963); (6981, 6988);
   (6992, 7001); (7043, 7072); (7086, 7141); (7168, 7203); (7232, 7241);
   (7245, 7293); (7296, 7304); (7312, 7354); (7357, 7359); (7401, 7404);
   (7406, 7411); (7413, 7414); (7418, 7418); (7424, 7615); (7680, 7957);
   (7960, 7965); (7968, 8005); (8008, 8013); (8016, 8023); (8025, 8025);
   (8027, 8027); (8029, 8029); (8031, 8061); (8064, 8116); (8118, 8124);
   (8126, 8126); (8130, 8132); (8134, 8140); (8144, 8147); (8150, 8155);
   (8160, 8172); (8178, 8180); (8182, 8188); (8304, 8305); (8308, 8313);
   (8319, 8329); (8336, 8348); (8450, 8450); (8455, 8455); (8458, 8467);
   (8469, 8469); (8473, 8477); (8484, 8484); (8486, 8486); (8488, 8488);
   (8490, 8493); (8495, 8505); (8508, 8511); (8517, 8521); (8526, 8526);
   (8528, 8585); (9312, 9371); (9450, 9471); (10102, 10131); (11264, 11492);
   (11499, 11502); (11506, 11507); (11517, 11517); (11520, 11557);
   (11559, 11559); (11565, 11565); (11568, 11623); (11631, 11631);
   (11648, 11670); (11680, 11686); (11688, 11694); (11696, 11702);
   (11704, 11710); (11712, 11718); (11720, 11726); (11728, 11734);
   (11736, 11742); (11823, 11823); (12293, 12295); (12321, 12329);
   (12337, 12341); (12344, 12348); (12353, 12438); (12445, 12447);
   (12449, 12538); (12540, 12543); (12549, 12591); (12593, 12686);
   (12690, 12693); (12704, 12735); (12784, 12799); (12832, 12841);
   (12872, 12879); (12881, 12895); (12928, 12937); (12977, 12991);
   (13312, 19903); (19968, 42124); (42192, 42237); (42240, 42508);
   (42512, 42539); (42560, 42606); (42623, 42653); (42656, 42735);
   (42775, 42783); (42786, 42888); (42891, 42954); (42960, 42961);
   (42963, 42963); (42965, 42969); (42994, 43009); (43011, 43013);
   (43015, 43018); (43020, 43042); (43056, 43061); (43072, 43123);
   (43138, 43187); (43216, 43225); (43250, 43255); (43259, 43259);
   (43261, 43262); (43264, 43301); (43312, 43334); (43360, 43388);
   (43396, 43442); (43471, 43481); (43488, 43492); (43494, 43518);
   (43520, 43560); (43584, 43586); (43588, 43595); (43600, 43609);
   (43616, 43638); (43642, 43642); (43646, 43695); (43697, 43697);
   (43701, 43702); (43705, 43709); (43712, 43712); (43714, 43714);
   (43739, 43741); (43744, 43754); (43762, 43764); (43777, 43782);
   (43785, 43790); (43793, 43798); (43808, 43814); (43816, 43822);
   (43824, 43866); (43868, 43881); (43888, 44002); (44016, 44025);
   (44032, 55203); (55216, 55238); (55243, 55291); (63744, 64109);
   (64112, 64217); (64256, 64262); (64275, 64279); (64285, 64285);
   (64287, 64296); (64298, 64310); (64312, 64316); (64318, 64318);
   (64320, 64321); (64323, 64324); (64326, 64433); (64467, 64829);
   (64848, 64911); (64914, 64967); (65008, 65019); (65136, 65140);
   (65142, 65276); (65296, 65305); (65313, 65338); (65345, 65370);
   (65382, 65470); (65474, 65479); (65482, 65487); (65490, 65495);
   (65498, 65500); (65536, 65547); (65549, 65574); (65576, 65594);
   (65596, 65597); (65599, 65613); (65616, 65629); (65664, 65786);
   (65799, 65843); (65856, 65912); (65930, 65931); (66176, 66204);
   (66208, 66256); (66273, 66299); (66304, 66339); (66349, 66378);
   (66384, 66421); (66432, 66461); (66464, 66499); (66504, 66511);
   (66513, 66517); (66560, 66717); (66720, 66729); (66736, 66771);
   (66776, 66811); (66816, 66855); (66864, 66915); (66928, 66938);
   (66940, 66954); (66956, 66962); (66964, 66965); (66967, 66977);
   (66979, 66993); (66995, 67001); (67003, 67004); (67072, 67382);
   (67392, 67413); (67424, 67431); (67456, 67461); (67463, 67504);
   (67506, 67514); (67584, 67589); (67592, 67592); (67594, 67637);
   (67639, 67640); (67644, 67644); (67647, 67669); (67672, 67702);
   (67705, 67742); (67751, 67759); (67808, 67826); (67828, 67829);
   (67835, 67867); (67872, 67897); (67968, 68023); (68028, 68047);
   (68050, 68096); (68112, 68115); (68117, 68119); (68121, 68149);
   (68160, 68168); (68192, 68222); (68224, 68255); (68288, 68295);
   (68297, 68324); (68331, 68335); (68352, 68405); (68416, 68437);
   (68440, 68466); (68472, 68497); (68521, 68527); (68608, 68680);
   (68736, 68786); (68800, 68850); (68858, 68899); (68912, 68921);
   (69216, 69246); (69248, 69289); (69296, 69297); (69376, 69415);
   (69424, 69445); (69457, 69460); (69488, 69505); (69552, 69579);
   (69600, 69622); (69635, 69687); (69714, 69743); (69745, 69746);
   (69749, 69749); (69763, 69807); (69840, 69864); (69872, 69881);
   (69891, 69926); (69942, 69951); (69956, 69956); (69959, 69959);
   (69968, 70002); (70006, 70006); (70019, 70066); (70081, 70084);
   (70096, 70106); (70108, 70108); (70113, 70132); (70144, 70161);
   (70163, 70187); (70272, 70278); (70280, 70280); (70282, 70285);
   (70287, 70301); (70303, 70312); (70320, 70366); (70384, 70393);
   (70405, 70412); (70415, 70416); (70419, 70440); (70442, 70448);
   (70450, 70451); (70453, 70457); (70461, 70461); (70480, 70480);
   (70493, 70497); (70656, 70708); (70727, 70730); (70736, 70745);
   (70751, 70753); (70784, 70831); (70852, 70853); (70855, 70855);
   (70864, 70873); (71040, 71086); (71128, 71131); (71168, 71215);
   (71236, 71236); (71248, 71257); (71296, 71338); (71352, 71352);
   (71360, 71369); (71424, 71450); (71472, 71483); (71488, 71494);
   (71680, 71723); (71840, 71922); (71935, 71942); (71945, 71945);
   (71948, 71955); (71957, 71958); (71960, 71983); (71999, 71999);
   (72001, 72001); (72016, 72025); (72096, 72103); (72106, 72144);
   (72161, 72161); (72163, 72163); (72192, 72192); (72203, 72242);
   (72250, 72250); (72272, 72272); (72284, 72329); (72349, 72349);
   (72368, 72440); (72704, 72712); (72714, 72750); (72768, 72768);
   (72784, 72812); (72818, 72847); (72960, 72966); (72968, 72969);
   (72971, 73008); (73030, 73030); (73040, 73049); (73056, 73061);
   (73063, 73064); (73066, 73097); (73112, 73112); (73120, 73129);
   (73440, 73458); (73648, 73648); (73664, 73684); (73728, 74649);
   (74752, 74862); (74880, 75075); (77712, 77808); (77824, 78894);
   (82944, 83526); (92160, 92728); (92736, 92766); (92768, 92777);
   (92784, 92862); (92864, 92873); (92880, 92909); (92928, 92975);
   (92992, 92995); (93008, 93017); (93019, 93025); (93027, 93047);
   (93053, 93071); (93760, 93846); (93952, 94026); (94032, 94032);
   (94099, 94111); (94176, 94177); (94179, 94179); (94208, 100343);
   (100352, 101589); (101632, 101640); (110576, 110579); (110581, 110587);
   (110589, 110590); (110592, 110882); (110928, 110930); (110948, 110951);
   (110960, 111355); (113664, 113770); (113776, 113788); (113792, 113800);
   (113808, 113817); (119520, 119539); (119648, 119672); (119808, 119892);
   (119894, 119964); (119966, 119967); (119970, 119970); (119973, 119974);
   (119977, 119980); (119982, 119993); (119995, 119995); (119997, 120003);
   (120005, 120069); (120071, 120074); (120077, 120084); (120086, 120092);
   (120094, 120121); (120123, 120126); (120128, 120132); (120134, 120134);
   (120138, 120144); (120146, 120485); (120488, 120512); (120514, 120538);
   (120540, 120570); (120572, 120596); (120598, 120628); (120630, 120654);
   (120656, 120686); (120688, 120712); (120714, 120744); (120746, 120770);
   (120772, 120779); (120782, 120831); (122624, 122654); (123136, 123180);
   (123191, 123197); (123200, 123209); (123214, 123214); (123536, 123565);
   (123584, 123627); (123632, 123641); (124896, 124902); (124904, 124907);
   (124909, 124910); (124912, 124926); (124928, 125124); (125127, 125135);
   (125184, 125251); (125259, 125259); (125264, 125273); (126065, 126123);
   (126125, 126127); (126129, 126132); (126209, 126253); (126255, 126269);
   (126464, 126467); (126469, 126495); (126497, 126498); (126500, 126500);
   (126503, 126503); (126505, 126514); (126516, 126519); (126521, 126521);
   (126523, 126523); (126530, 126530); (126535, 126535); (126537, 126537);
   (126539, 126539); (126541, 126543); (126545, 126546); (126548, 126548);
   (126551, 126551); (126553, 126553); (126555, 126555); (126557, 126557);
   (126559, 126559); (126561, 126562); (126564, 126564); (126567, 126570);
   (126572, 126578); (126580, 126583); (126585, 126588); (126590, 126590);
   (126592, 126601); (126603, 126619); (126625, 126627); (126629, 126633);
   (126635, 126651); (127232, 127244); (130032, 130041); (131072, 173791);
   (173824, 177976); (177984, 178205); (178208, 183969); (183984, 191456);
   (194560, 195101); (196608, 201546)].

Definition in_range (c : char) (r : N * N) : bool :=
  (fst r <=? c) && (c <=? snd r).

Definition isalnum (c : char) : bool := existsb (in_range c) alnum_ranges.

End Unicode.

(* ===================================================================== *)
(** ** [re.sub] with a one-character class, and the sanitizer *)
(* ===================================================================== *)

(** [\w] of a [str] pattern: alphanumeric in the Unicode database, or the
    underscore. *)
Definition word_char (c : char) : bool :=
  Unicode.isalnum c || (c =? ch "_").

(** The class [[^\w\-_\.]]. *)
Definition unsafe_char (c : char) : bool :=
  negb (word_char c || (c =? ch "-") || (c =? ch "_") || (c =? ch ".")).

(** [re.sub(cls, repl, s)] where the pattern is one character class: every
    matching character is replaced, the others are copied. *)
Definition re_sub (cls : char -> bool) (repl : str) (s : str) : str :=
  flat_map (fun c => if cls c then repl else [c]) s.

(** [re.sub(r'[^\w\-_\.]', '_', filename)] *)
Definition sanitize (filename : str) : str :=
  re_sub unsafe_char (py "_") filename.

(* ===================================================================== *)
(** ** [os.path.splitext] (posixpath) *)
(* ===================================================================== *)

(** [p[i:j]] for [0 <= i]. *)
Definition slice (p : str) (i j : Z) : str :=
  take (Z.to_nat (j - i)) (drop (Z.to_nat i) p).

(** The loop of [genericpath._splitext] that skips the leading dots: it
    returns the split as soon as a character before [dotIndex] is not a
    dot, and falls out of the loop when all of them are. *)
Fixpoint only_dots (s : str) : bool :=
  match s with
  | [] => true
  | c :: s' => if c =? ch "." then only_dots s' else false
  end.

(** [genericpath._splitext(p, '/', None, '.')] *)
Definition splitext (p : str) : str * str :=
  let sepIndex := rfind (ch "/") p in
  let dotIndex := rfind (ch ".") p in
  if (sepIndex <? dotIndex)%Z then
    if only_dots (slice p (sepIndex + 1) dotIndex)
    then (p, [])
    else (take (Z.to_nat dotIndex) p, drop (Z.to_nat dotIndex) p)
  else (p, []).

(* ===================================================================== *)
(** ** [datetime] and [strftime] *)
(* ===================================================================== *)

Record datetime := {
  year : N; month : N; day : N;
  hour : N; minute : N; second : N;
  microsecond : N
}.

(** The readings [datetime.now()] can give where all platforms format
    [%Y] with four digits. *)
Definition valid_datetime (d : datetime) : Prop :=
  1000 <= year d <= 9999 /\ 1 <= month d <= 12 /\ 1 <= day d <= 31 /\
  hour d < 24 /\ minute d < 60 /\ second d < 60.

(** The reading truncated to the second, which is all [strftime] below
    looks at. *)
Definition to_second (d : datetime) : N * N * N * N * N * N :=
  (year d, month d, day d, hour d, minute d, second d).

(** [d.strftime(fmt)] for the directives the server uses. *)
Fixpoint strftime (fmt : str) (d : datetime) : str :=
  match fmt with
  | [] => []
  | c :: fmt' =>
      if c =? ch "%" then
        match fmt' with
        | [] => [c]
        | k :: fmt'' =>
            (if k =? ch "Y" then zpad4 (year d)
             else if k =? ch "m" then zpad2 (month d)
             else if k =? ch "d" then zpad2 (day d)
             else if k =? ch "H" then zpad2 (hour d)
             else if k =? ch "M" then zpad2 (minute d)
             else if k =? ch "S" then zpad2 (second d)
             else [c; k]) ++ strftime fmt'' d
        end
      else c :: strftime fmt' d
  end.

(** [base, ext = os.path.splitext(filename)],
    [timestamp = datetime.now().strftime('%Y%m%d_%H%M%S')],
    [filename = f"{base}_{timestamp}{ext}"], on the sanitized name. *)
Definition timestamp (now : datetime) : str :=
  strftime (py "%Y%m%d_%H%M%S") now.

Definition add_timestamp (now : datetime) (filename : str) : str :=
  let '(base, ext) := splitext filename in
  base ++ py "_" ++ timestamp now ++ ext.

(** The name an upload of [filename] at [now] is stored under. *)
Definition stored_name (now : datetime) (filename : str) : str :=
  add_timestamp now (sanitize filename).

(* ===================================================================== *)
(** ** [pathlib.PurePosixPath] *)
(* ===================================================================== *)

(** A parsed path: the root ([''], ['/'] or ['//']) and the components
    after it. *)
Record PurePath := { root : str; parts : list str }.

(** [part.lstrip('/')] *)
Fixpoint lstrip (c : char) (s : str) : str :=
  match s with
  | x :: s' => if x =? c then lstrip c s' else s
  | [] => []
  end.

(** [_PosixFlavour.splitroot] *)
Definition splitroot (part : str) : str * str :=
  match part with
  | c :: _ =>
      if c =? ch "/" then
        let stripped_part := lstrip (ch "/") part in
        if (length part - length stripped_part =? 2)%nat
        then (py "//", stripped_part)
        else (py "/", stripped_part)
      else ([], part)
  | [] => ([], part)
  end.

Definition is_component (x : str) : bool :=
  negb (str_eqb x []) && negb (str_eqb x (py ".")).

(** [_Flavour.parse_parts] of one argument: empty and ['.'] components
    are dropped, ['..'] is kept. *)
Definition parse_parts (part : str) : str * list str :=
  let '(root, rel) := splitroot part in
  if existsb (N.eqb (ch "/")) rel
  then (root, List.filter is_component (split (ch "/") rel))
  else (root, if is_component rel then [rel] else []).

(** [Path(s)] *)
Definition Path (s : str) : PurePath :=
  let '(root, parts) := parse_parts s in {| root := root; parts := parts |}.

(** [p / key]: an anchored [key] replaces [p], any other is appended. *)
Definition truediv (p : PurePath) (key : str) : PurePath :=
  let '(root2, parts2) := parse_parts key in
  match root2 with
  | _ :: _ => {| root := root2; parts := parts2 |}
  | [] => {| root := root p; parts := parts p ++ parts2 |}
  end.

(** The children [iterdir] yields: the entry name appended as it is. *)
Definition make_child_relpath (p : PurePath) (name : str) : PurePath :=
  {| root := root p; parts := parts p ++ [name] |}.

(** [str(p)] *)
Definition path_str (p : PurePath) : str :=
  match root p ++ join (py "/") (parts p) with
  | [] => py "."
  | s => s
  end.

Definition is_absolute (p : PurePath) : bool := negb (str_eqb (root p) []).

(** What the kernel makes of a path when no component is a symbolic
    link: ['..'] steps back to the parent (and stays at the root), any
    other component steps down. A relative path starts at the working
    directory [cwd]. The result lists the components from the root. *)
Definition walk (stack : list str) (components : list str) : list str :=
  fold_left
    (fun st x => if str_eqb x (py "..") then tail st else x :: st)
    components stack.

Definition resolve (cwd : list str) (p : PurePath) : list str :=
  rev (walk (if is_absolute p then [] else rev cwd) (parts p)).

(** [inside dir p]: the resolved [p] lies strictly below the resolved
    [dir]. *)
Definition inside (cwd : list str) (dir p : PurePath) : bool :=
  let d := resolve cwd dir in
  let r := resolve cwd p in
  bool_decide (take (length d) r = d) && (length d <? length r)%nat.

(** A component is a [..] segment of [s] when splitting [s] at the path
    separator yields it. *)
Definition has_separator (s : str) : bool := existsb (N.eqb (ch "/")) s.
Definition has_dotdot_segment (s : str) : bool :=
  existsb (fun x => str_eqb x (py "..")) (split (ch "/") s).

(* ===================================================================== *)
(** ** Exceptions, and the state-and-exception monad of a handler *)
(* ===================================================================== *)

(** An exception: its class and [str(e)]. *)
Record exn := Exception { exn_class : str; exn_str : str }.

Inductive result (A : Type) : Type :=
  | Ok (a : A)
  | Raise (e : exn).
Arguments Ok {A} a.
Arguments Raise {A} e.

Inductive file_type := Regular | Directory.

(** An entry of the storage directory, as [stat] shows it: regular files
    and subdirectories; the size of a regular file is the length of its
    content. Every entry can be [stat]-ed, and no entry is a symbolic
    link. *)
Record inode := { st_type : file_type; content : list byte; st_mtime : Z }.

(** The part of the file system the server touches: the storage
    directory ([None] while it does not exist, a directory otherwise), a
    map from entry names to
    entries, and the record of every write to a path that is not an entry
    of the storage directory. *)
Record filesystem := {
  upload_dir : option (gmap (list N) inode);
  written_elsewhere : list (PurePath * list byte)
}.

(** What the operating system answers during one request: the clock, the
    local time of a timestamp, whether [mkdir] and [open] fail, whether
    [write] fails after some bytes reached the file, and the modification
    time a write stamps. *)
Record os_env := {
  now : datetime;
  fromtimestamp : Z -> datetime;
  mkdir_error : option exn;
  open_error : option exn;
  write_error : option (nat * exn);
  write_mtime : Z
}.

Definition io (A : Type) : Type := filesystem -> result A * filesystem.

Definition ret {A} (a : A) : io A := fun fs => (Ok a, fs).
Definition raise {A} (e : exn) : io A := fun fs => (Raise e, fs).
Definition bind {A B} (m : io A) (k : A -> io B) : io B :=
  fun fs =>
    match m fs with
    | (Ok a, fs') => k a fs'
    | (Raise e, fs') => (Raise e, fs')
    end.
Definition lift {A} (r : result A) : io A := fun fs => (r, fs).

Notation "'let*' x ':=' m 'in' k" := (bind m (fun x => k))
  (at level 10, x name, m at level 100, k at level 200).

(** [try: m except Exception as e: h e]; the state reached when the
    exception was raised is the one the handler continues from. *)
Definition try_except {A} (m : io A) (h : exn -> filesystem -> A * filesystem)
  : filesystem -> A * filesystem :=
  fun fs =>
    match m fs with
    | (Ok a, fs') => (a, fs')
    | (Raise e, fs') => h e fs'
    end.

(* ===================================================================== *)
(** ** The storage directory *)
(* ===================================================================== *)

Definition FileNotFoundError (p : PurePath) : exn :=
  Exception (py "FileNotFoundError")
    (py "[Errno 2] No such file or directory: '" ++ path_str p ++ py "'").
Definition IsADirectoryError (p : PurePath) : exn :=
  Exception (py "IsADirectoryError")
    (py "[Errno 21] Is a directory: '" ++ path_str p ++ py "'").

(** [dir.mkdir(parents=True, exist_ok=True)] *)
Definition mkdir (os : os_env) : io unit :=
  fun fs =>
    match mkdir_error os with
    | Some e => (Raise e, fs)
    | None =>
        (Ok tt,
         {| upload_dir := Some (default ∅ (upload_dir fs));
            written_elsewhere := written_elsewhere fs |})
    end.

(** The entry of [dir] a path names, when it is one. *)
Definition entry_name (dir p : PurePath) : option (list N) :=
  if bool_decide (root p = root dir) then
    match drop (length (parts dir)) (parts p) with
    | [name] =>
        if bool_decide (take (length (parts dir)) (parts p) = parts dir)
           && negb (str_eqb name (py ".."))
        then Some name else None
    | _ => None
    end
  else None.

(** What [open(p, 'wb')] followed by [write(data)] leaves in the file:
    all of [data], or the bytes written before the failure. *)
Definition written (os : os_env) (data : list byte) : list byte :=
  match write_error os with
  | Some (n, _) => take n data
  | None => data
  end.

Definition write_outcome (os : os_env) (data : list byte) : result nat :=
  match write_error os with
  | Some (_, e) => Raise e
  | None => Ok (length data)
  end.

(** [p.write_bytes(data)]: [open(p, 'wb')] creates the file or truncates
    it, [write] fills it, with no temporary file and no rename. *)
Definition write_bytes (dir : PurePath) (os : os_env) (p : PurePath)
    (data : list byte) : io nat :=
  fun fs =>
    let file :=
      {| st_type := Regular; content := written os data;
         st_mtime := write_mtime os |} in
    match entry_name dir p with
    | Some name =>
        match upload_dir fs with
        | None => (Raise (FileNotFoundError p), fs)
        | Some d =>
            match st_type <$> d !! name with
            | Some Directory => (Raise (IsADirectoryError p), fs)
            | _ =>
                match open_error os with
                | Some e => (Raise e, fs)
                | None =>
                    (write_outcome os data,
                     {| upload_dir := Some (<[name := file]> d);
                        written_elsewhere := written_elsewhere fs |})
                end
            end
        end
    | None =>
        match open_error os with
        | Some e => (Raise e, fs)
        | None =>
            (write_outcome os data,
             {| upload_dir := upload_dir fs;
                written_elsewhere :=
                  written_elsewhere fs ++ [(p, written os data)] |})
        end
    end.

(** [sorted(entries, key=lambda x: x.stat().st_mtime, reverse=True)]: a
    stable sort, the entries of equal time keep their order. *)
Fixpoint insert_by_mtime (x : list N * inode) (l : list (list N * inode))
  : list (list N * inode) :=
  match l with
  | [] => [x]
  | y :: l' =>
      if (st_mtime (snd x) <? st_mtime (snd y))%Z
      then y :: insert_by_mtime x l'
      else x :: y :: l'
  end.

Definition sorted_by_mtime_reverse (l : list (list N * inode))
  : list (list N * inode) :=
  foldr insert_by_mtime [] l.

Definition is_file (e : list N * inode) : bool :=
  match st_type (snd e) with Regular => true | Directory => false end.

Definition st_size (e : list N * inode) : N := N.of_nat (length (content (snd e))).

(* ===================================================================== *)
(** ** [cgi.FieldStorage] *)
(* ===================================================================== *)

(** What [item.file.read()] returns: [bytes] for a part with a filename,
    [str] for a part without one. *)
Inductive pydata :=
  | PyBytes (b : list byte)
  | PyStr (s : str).

(** One part of the form. A part that carries a [filename] attribute is
    read in binary mode, any other part as text, so the two shapes are
    the constructors of [field_value]. *)
Inductive field_value :=
  | FileValue (filename : str) (data : list byte)
  | TextValue (text : str).

Record field := { name : option (list N); value : field_value }.

Definition filename (f : field) : option (list N) :=
  match value f with
  | FileValue fn _ => Some fn
  | TextValue _ => None
  end.

Definition file_read (f : field) : pydata :=
  match value f with
  | FileValue _ data => PyBytes data
  | TextValue text => PyStr text
  end.

(** The parsed form: [self.list], which is [None] when the body was not
    read as a form. *)
Record FieldStorage := { fields : option (list field) }.

Definition named (key : str) (f : field) : bool :=
  bool_decide (name f = Some key).

Definition not_indexable : exn :=
  Exception (py "TypeError") (py "not indexable").

(** [key in form] *)
Definition FieldStorage_contains (form : FieldStorage) (key : str)
  : result bool :=
  match fields form with
  | None => Raise not_indexable
  | Some l => Ok (existsb (named key) l)
  end.

(** [form[key]]: the part of that name, or the list of them when there
    are several. *)
Inductive form_item :=
  | OneField (f : field)
  | FieldList (l : list field).

Definition FieldStorage_getitem (form : FieldStorage) (key : str)
  : result form_item :=
  match fields form with
  | None => Raise not_indexable
  | Some l =>
      match List.filter (named key) l with
      | [] => Raise (Exception (py "KeyError") (py "'" ++ key ++ py "'"))
      | [f] => Ok (OneField f)
      | found => Ok (FieldList found)
      end
  end.

Definition list_has_no_attribute (attr : str) : exn :=
  Exception (py "AttributeError")
    (py "'list' object has no attribute '" ++ attr ++ py "'").

(** [file_item.filename] *)
Definition item_filename (i : form_item) : result (option (list N)) :=
  match i with
  | OneField f => Ok (filename f)
  | FieldList _ => Raise (list_has_no_attribute (py "filename"))
  end.

(** [file_item.file.read()] *)
Definition item_read (i : form_item) : result pydata :=
  match i with
  | OneField f => Ok (file_read f)
  | FieldList _ => Raise (list_has_no_attribute (py "file"))
  end.

(** [re.sub(r'[^\w\-_\.]', '_', filename)] on what [file_item.filename]
    gave: [None] is no string. *)
Definition expected_string : exn :=
  Exception (py "TypeError")
    (py "expected string or bytes-like object, got 'NoneType'").

Definition sanitize_filename (filename : option (list N)) : result (list N) :=
  match filename with
  | Some s => Ok (sanitize s)
  | None => Raise expected_string
  end.

(** [memoryview(data)] in [write_bytes], and [len(data)]. *)
Definition as_bytes (data : pydata) : result (list byte) :=
  match data with
  | PyBytes b => Ok b
  | PyStr _ =>
      Raise (Exception (py "TypeError")
               (py "memoryview: a bytes-like object is required, not 'str'"))
  end.

(* ===================================================================== *)
(** ** Requests and responses *)
(* ===================================================================== *)

(** The values handed to [json.dumps]. *)
#[local] Unset Elimination Schemes.
Inductive json :=
  | JBool (b : bool)
  | JInt (n : Z)
  | JStr (s : list N)
  | JList (l : list json)
  | JDict (l : list (list N * json)).
#[local] Set Elimination Schemes.

Inductive payload :=
  | NoBody
  | HTML_PAGE
  | JsonBody (data : json).

Record response := {
  status : N;
  content_type : option (list N);
  body : payload
}.

(** A request: the path, the [Content-Type] header, and what
    [cgi.FieldStorage] makes of the headers and the body (a form, or the
    exception its constructor raises). *)
Record request := {
  path : list N;
  header_content_type : option (list N);
  form_data : result FieldStorage
}.

(** The configuration read from the environment at start-up. *)
Record config := { UPLOAD_DIR : PurePath; PORT : N }.

Definition default_config : config :=
  {| UPLOAD_DIR := Path (py "/home/claude/share"); PORT := 8888 |}.

Definition send_json (data : json) (status : N) : response :=
  {| status := status;
     content_type := Some (py "application/json");
     body := JsonBody data |}.

Definition not_found : response :=
  {| status := 404; content_type := None; body := NoBody |}.

Definition failure (error : str) : json :=
  JDict [(py "success", JBool false); (py "error", JStr error)].

(* ===================================================================== *)
(** ** [UploadHandler.do_GET] *)
(* ===================================================================== *)

(** The nearest integer to [num / den], ties to the even one: how
    [format(x, '.1f')] rounds the exact value of the float [x]. *)
Definition round_half_even (num den : N) : N :=
  let q := num / den in
  let r := num mod den in
  if 2 * r <? den then q
  else if den <? 2 * r then q + 1
  else if N.even q then q else q + 1.

(** [f"{num/den:.1f}"] for a quotient the float holds exactly (a size
    below [2^53] over a power of two). *)
Definition format_1f (num den : N) : str :=
  let tenths := round_half_even (10 * num) den in
  decimal (tenths / 10) ++ py "." ++ [digit tenths].

Definition size_str (size : N) : str :=
  if size <? 1024 then decimal size ++ py " B"
  else if size <? 1024 * 1024 then format_1f size 1024 ++ py " KB"
  else format_1f size (1024 * 1024) ++ py " MB".

Definition file_entry (cfg : config) (os : os_env) (f : list N * inode) : json :=
  JDict
    [(py "name", JStr (fst f));
     (py "path", JStr (path_str (make_child_relpath (UPLOAD_DIR cfg) (fst f))));
     (py "size", JStr (size_str (st_size f)));
     (py "time",
      JStr (strftime (py "%Y-%m-%d %H:%M:%S")
              (fromtimestamp os (st_mtime (snd f)))))].

(** The entries listed, in the order of the response. *)
Definition listed (fs : filesystem) : list (list N * inode) :=
  match upload_dir fs with
  | Some d => List.filter is_file (sorted_by_mtime_reverse (map_to_list d))
  | None => []
  end.

Definition do_GET (cfg : config) (os : os_env) (req : request)
    (fs : filesystem) : response * filesystem :=
  if str_eqb (path req) (py "/") then
    ({| status := 200; content_type := Some (py "text/html");
        body := HTML_PAGE |}, fs)
  else if str_eqb (path req) (py "/files") then
    (send_json (JList (List.map (file_entry cfg os) (listed fs))) 200, fs)
  else (not_found, fs).

(* ===================================================================== *)
(** ** [UploadHandler.do_POST] *)
(* ===================================================================== *)

Definition upload (cfg : config) (os : os_env) (req : request) : io response :=
  let content_type := default [] (header_content_type req) in
  if str_contains (py "multipart/form-data") content_type then
    let* form := lift (form_data req) in
    let* present := lift (FieldStorage_contains form (py "file")) in
    if negb present then
      ret (send_json (failure (py "No file provided")) 400)
    else
      let* file_item := lift (FieldStorage_getitem form (py "file")) in
      let* filename := lift (item_filename file_item) in
      let* data := lift (item_read file_item) in
      let* filename := lift (sanitize_filename filename) in
      let filename := add_timestamp (now os) filename in
      let* _ := mkdir os in
      let filepath := truediv (UPLOAD_DIR cfg) filename in
      let* bytes := lift (as_bytes data) in
      let* _ := write_bytes (UPLOAD_DIR cfg) os filepath bytes in
      ret (send_json
             (JDict [(py "success", JBool true);
                     (py "path", JStr (path_str filepath));
                     (py "size", JInt (Z.of_nat (length bytes)))])
             200)
  else ret (send_json (failure (py "Invalid content type")) 400).

Definition do_POST (cfg : config) (os : os_env) (req : request)
    (fs : filesystem) : response * filesystem :=
  if str_eqb (path req) (py "/upload") then
    try_except (upload cfg os req)
      (fun e fs' => (send_json (failure (exn_str e)) 500, fs')) fs
  else (not_found, fs).

(* ===================================================================== *)
(** ** The script of the page: what it sends to [/upload] *)
(* ===================================================================== *)

(** The paste handler: a clipboard item whose type starts with [image/]
    becomes a file named [clipboard_<Date.now()>.<ext>], where [ext] is
    [item.type.split('/')[1] || 'png']; other items are skipped. *)
Definition clipboard_filename (type : str) (date_now : N) : option (list N) :=
  if startswith type (py "image/") then
    let ext :=
      match nth 1 (split (ch "/") type) [] with
      | [] => py "png"
      | ext => ext
      end in
    Some (py "clipboard_" ++ decimal date_now ++ py "." ++ ext)
  else None.


(* ===================================================================== *)
(** * The vocabulary of the properties, and the scenarios *)
(* ===================================================================== *)

(** The rule of the specification, in its words: a character is kept when
    it is an ASCII letter, an ASCII digit, an underscore, a hyphen or a
    dot, and replaced by an underscore otherwise. *)
Definition ascii_safe (c : char) : bool :=
  ((ch "a" <=? c) && (c <=? ch "z")) || ((ch "A" <=? c) && (c <=? ch "Z")) ||
  ((ch "0" <=? c) && (c <=? ch "9")) ||
  (c =? ch "_") || (c =? ch "-") || (c =? ch ".").

Definition sanitize_ascii_rule (s : str) : str :=
  List.map (fun c => if ascii_safe c then c else ch "_") s.

(** The characters the sanitizer keeps. *)
Definition kept (c : char) : bool :=
  Unicode.isalnum c || (c =? ch "_") || (c =? ch "-") || (c =? ch ".").

(** Arithmetic on quotients and remainders: name them, then [lia]. *)
Ltac name_divmod :=
  repeat match goal with
    | H : context [?a mod ?b] |- _ =>
        let r := fresh "r" in set (r := a mod b) in *; clearbody r
    | |- context [?a mod ?b] =>
        let r := fresh "r" in set (r := a mod b) in *; clearbody r
    | H : context [?a / ?b] |- _ =>
        let q := fresh "q" in set (q := a / b) in *; clearbody q
    | |- context [?a / ?b] =>
        let q := fresh "q" in set (q := a / b) in *; clearbody q
    end.

(** The request is a POST to [/upload] that declares a multipart form
    whose only part named [file] is [f]. *)
Definition upload_of (req : request) (f : field) : Prop :=
  path req = py "/upload" /\
  str_contains (py "multipart/form-data")
    (default [] (header_content_type req)) = true /\
  exists form l,
    form_data req = Ok form /\ fields form = Some l /\
    List.filter (named (py "file")) l = [f].

Definition success (filepath : PurePath) (size : nat) : json :=
  JDict [(py "success", JBool true);
         (py "path", JStr (path_str filepath));
         (py "size", JInt (Z.of_nat size))].

Definition entry (fs : filesystem) (n : list N) : option inode :=
  match upload_dir fs with
  | Some d => d !! n
  | None => None
  end.

(** 2024-01-15 10:30:00. *)
Definition jan15 : datetime :=
  {| year := 2024; month := 1; day := 15;
     hour := 10; minute := 30; second := 0; microsecond := 0 |}.

(** An operating system where nothing fails. *)
Definition quiet_os (clock : datetime) : os_env :=
  {| now := clock; fromtimestamp := fun _ => clock;
     mkdir_error := None; open_error := None; write_error := None;
     write_mtime := 0 |}.

Definition no_space : exn :=
  Exception (py "OSError") (py "[Errno 28] No space left on device").

(** The disk fills up after [n] bytes of the write. *)
Definition full_disk_os (clock : datetime) (n : nat) : os_env :=
  {| now := clock; fromtimestamp := fun _ => clock;
     mkdir_error := None; open_error := None;
     write_error := Some (n, no_space);
     write_mtime := 0 |}.

Definition empty_fs : filesystem :=
  {| upload_dir := None; written_elsewhere := [] |}.

Definition multipart (l : list field) : request :=
  {| path := py "/upload";
     header_content_type := Some (py "multipart/form-data; boundary=x");
     form_data := Ok {| fields := Some l |} |}.

Definition file_part (fn : list N) (data : list byte) : field :=
  {| name := Some (py "file"); value := FileValue fn data |}.

Definition text_part (key text : list N) : field :=
  {| name := Some key; value := TextValue text |}.







(** A storage directory with two files and a subdirectory. *)
Definition shared_fs : filesystem :=
  {| upload_dir :=
       Some (list_to_map
               [(py "a.txt",
                 {| st_type := Regular; content := [x41]; st_mtime := 10 |});
                (py "sub",
                 {| st_type := Directory; content := []; st_mtime := 30 |});
                (py "b.bin",
                 {| st_type := Regular; content := repeat x00 1280;
                    st_mtime := 20 |})]);
     written_elsewhere := [] |}.

Definition get (p : list N) : request :=
  {| path := p; header_content_type := None;
     form_data := Ok {| fields := None |} |}.

(** The file system after [a.txt] was uploaded with one byte, and after
    it was uploaded again, in the same second, with two other bytes. *)
Definition after_first_upload : filesystem :=
  snd (do_POST default_config (quiet_os jan15)
         (multipart [file_part (py "a.txt") [x01]]) empty_fs).

Definition after_second_upload : filesystem :=
  snd (do_POST default_config (quiet_os jan15)
         (multipart [file_part (py "a.txt") [x02; x03]]) after_first_upload).

(** 2024-01-15 10:30:02. *)
Definition two_seconds_later : datetime :=
  {| year := 2024; month := 1; day := 15;
     hour := 10; minute := 30; second := 2; microsecond := 0 |}.

(* ===================================================================== *)
(** * Properties *)
(* ===================================================================== *)

(* --------------------------------------------------------------------- *)
(** ** The sanitizer *)
(* --------------------------------------------------------------------- *)

Lemma unsafe_char_kept c : unsafe_char c = negb (kept c).
Proof.
  unfold unsafe_char, kept, word_char.
  destruct (Unicode.isalnum c), (c =? ch "_"), (c =? ch "-"), (c =? ch ".");
    reflexivity.
Qed.

Lemma sanitize_map s :
  sanitize s = List.map (fun c => if kept c then c else ch "_") s.
Proof.
  unfold sanitize, re_sub.
  induction s as [|c s IH]; [reflexivity|].
  cbn [flat_map List.map]. rewrite IH, unsafe_char_kept.
  destruct (kept c); reflexivity.
Qed.

Lemma sanitize_length s : length (sanitize s) = length s.
Proof. rewrite sanitize_map. apply length_map. Qed.

(** A property of the numbers below [k], checked on each of them. *)
Lemma below_cases (k : N) (P : N -> bool) :
  forallb P (List.map N.of_nat (seq 0 (N.to_nat k))) = true ->
  forall c, c < k -> P c = true.
Proof.
  intros H c Hc. rewrite forallb_forall in H. apply H.
  rewrite <- (N2Nat.id c). apply in_map, in_seq. lia.
Qed.

Lemma kept_ascii c : c < 128 -> kept c = ascii_safe c.
Proof.
  intros Hc.
  apply (below_cases 128 (fun c => Bool.eqb (kept c) (ascii_safe c))) in Hc;
    [ now apply Bool.eqb_prop | vm_compute; reflexivity ].
Qed.

Lemma kept_not_separator c : kept c = true -> c <> ch "/".
Proof. intros H ->. vm_compute in H. discriminate. Qed.

Lemma sanitize_elem c s : c ∈ sanitize s -> kept c = true.
Proof.
  rewrite sanitize_map. intros H. apply list_elem_of_In, in_map_iff in H.
  destruct H as (x & <- & _). destruct (kept x) eqn:E; [exact E|].
  vm_compute. reflexivity.
Qed.

Lemma sanitize_no_separator s : ch "/" ∉ sanitize s.
Proof. intros H. apply sanitize_elem in H. vm_compute in H. discriminate. Qed.

(** C2, at a file name with a non-ASCII letter: [é.txt] comes back
    unchanged from the sanitizer, where the rule of the specification
    gives [_.txt]. *)
Lemma C2_non_ascii_letter_kept :
  sanitize (233 :: py ".txt") = 233 :: py ".txt" /\
  sanitize_ascii_rule (233 :: py ".txt") = py "_.txt" /\
  ascii_safe 233 = false.
Proof. vm_compute. auto. Qed.

(** C2, amended: the sanitizer keeps the length; it replaces by an
    underscore exactly the characters that are neither alphanumeric in
    the Unicode database, nor an underscore, a hyphen or a dot, and
    leaves every other character unchanged; on code points below 128 the
    kept characters are exactly the ASCII letters, the ASCII digits, the
    underscore, the hyphen and the dot, so on ASCII input the sanitizer is
    the rule of the specification. *)
Theorem C2_sanitize_replaces_non_word_characters (s : str) :
  length (sanitize s) = length s /\
  (forall (i : nat) (c : N), s !! i = Some c ->
     sanitize s !! i =
       Some (if Unicode.isalnum c || (c =? ch "_") || (c =? ch "-") || (c =? ch ".")
             then c else ch "_")) /\
  (forall c : N, c < 128 -> kept c = ascii_safe c) /\
  (Forall (fun c => c < 128) s -> sanitize s = sanitize_ascii_rule s).
Proof.
  split; [apply sanitize_length|]. split; [|split].
  - intros i c Hi. rewrite sanitize_map, list_lookup_fmap_Some.
    exists c. split; [reflexivity | exact Hi].
  - apply kept_ascii.
  - intros Hs. rewrite sanitize_map. unfold sanitize_ascii_rule.
    apply map_ext_in. intros c Hc.
    rewrite Forall_forall in Hs. rewrite kept_ascii; [reflexivity|].
    apply Hs, list_elem_of_In, Hc.
Qed.

(* --------------------------------------------------------------------- *)
(** ** [rfind] and [splitext] *)
(* --------------------------------------------------------------------- *)

Lemma rfind_range (c : N) (s : list N) : (-1 <= rfind c s < Z.of_nat (length s))%Z.
Proof.
  induction s as [|x s IH]; cbn [rfind length]; [lia|].
  destruct (0 <=? rfind c s)%Z eqn:E; [lia|].
  destruct (x =? c); lia.
Qed.

Lemma rfind_absent (c : N) (s : list N) : c ∉ s -> rfind c s = (-1)%Z.
Proof.
  induction s as [|x s IH]; intros H; [reflexivity|].
  apply not_elem_of_cons in H as [Hx Hs]. cbn [rfind]. rewrite (IH Hs).
  cbn. destruct (N.eqb_spec x c); congruence.
Qed.

(** The last occurrence splits the string. *)
Lemma rfind_last (c : N) (a b : list N) :
  c ∉ b -> rfind c (a ++ c :: b) = Z.of_nat (length a).
Proof.
  intros Hb. induction a as [|x a IH].
  - cbn [app rfind length]. rewrite (rfind_absent c b Hb). cbn.
    now rewrite N.eqb_refl.
  - cbn [app rfind length]. rewrite IH.
    destruct (0 <=? Z.of_nat (length a))%Z eqn:E; lia.
Qed.

Lemma rfind_present (c : N) (s : list N) :
  c ∈ s -> exists a b, s = a ++ c :: b /\ (c ∉ b).
Proof.
  induction s as [|x s IH]; intros H; [by apply elem_of_nil in H|].
  destruct (decide (c ∈ s)) as [Hs|Hs].
  - destruct (IH Hs) as (a & b & -> & Hb). by exists (x :: a), b.
  - apply elem_of_cons in H as [->|H]; [|contradiction].
    by exists [], s.
Qed.

Lemma only_dots_repeat (a : list N) :
  only_dots a = true -> a = repeat (ch ".") (length a).
Proof.
  induction a as [|x a IH]; [reflexivity|]. cbn [only_dots length repeat].
  destruct (N.eqb_spec x (ch ".")) as [->|]; [|discriminate].
  intros H. f_equal. now apply IH.
Qed.

Lemma slice_prefix (a b : str) : slice (a ++ b) 0 (Z.of_nat (length a)) = a.
Proof.
  unfold slice. rewrite Z.sub_0_r, Nat2Z.id. change (Z.to_nat 0) with 0%nat.
  rewrite drop_0. apply take_app_length.
Qed.

(** [splitext] on a name without separator: either all dots of the name
    lead it and there is no extension, or the name splits at its last
    dot, which some other character precedes. *)
Lemma splitext_spec (p : list N) :
  ch "/" ∉ p ->
  (exists k rest, p = repeat (ch ".") k ++ rest /\ (ch "." ∉ rest) /\
                  splitext p = (p, [])) \/
  (exists a r, p = a ++ ch "." :: r /\ (ch "." ∉ r) /\ only_dots a = false /\
               splitext p = (a, ch "." :: r)).
Proof.
  intros Hsep. unfold splitext. rewrite (rfind_absent _ _ Hsep).
  destruct (decide (ch "." ∈ p)) as [Hdot|Hdot].
  - destruct (rfind_present _ _ Hdot) as (a & r & -> & Hr).
    rewrite (rfind_last _ a r Hr).
    destruct (Z.ltb_spec (-1) (Z.of_nat (length a))) as [_|]; [|lia].
    replace (-1 + 1)%Z with 0%Z by lia. rewrite slice_prefix.
    rewrite Nat2Z.id, take_app_length, drop_app_length.
    destruct (only_dots a) eqn:E.
    + left. exists (S (length a)), r. split; [|done].
      rewrite (only_dots_repeat a E) at 1.
      replace (S (length a)) with (length a + 1)%nat by lia.
      by rewrite repeat_app, <- app_assoc.
    + right. by exists a, r.
  - left. exists 0%nat, p. rewrite (rfind_absent _ _ Hdot). by cbn.
Qed.

Lemma splitext_join (p : list N) : fst (splitext p) ++ snd (splitext p) = p.
Proof.
  unfold splitext. destruct (_ <? _)%Z; [|apply app_nil_r].
  destruct (only_dots _); [apply app_nil_r|]. apply take_drop.
Qed.

(* --------------------------------------------------------------------- *)
(** ** The timestamp *)
(* --------------------------------------------------------------------- *)

Lemma timestamp_fields d :
  timestamp d =
    zpad4 (year d) ++ zpad2 (month d) ++ zpad2 (day d) ++ py "_" ++
    zpad2 (hour d) ++ zpad2 (minute d) ++ zpad2 (second d).
Proof. reflexivity. Qed.


Lemma digit_range n : 48 <= digit n <= 57.
Proof.
  unfold digit. assert (n mod 10 < 10) by (apply N.mod_upper_bound; lia).
  name_divmod. lia.
Qed.

Lemma timestamp_chars (d : datetime) (c : N) :
  c ∈ timestamp d -> 48 <= c <= 57 \/ c = ch "_".
Proof.
  rewrite timestamp_fields. unfold zpad4, zpad2. cbn [app py List.map list_ascii_of_string].
  intros H. repeat (apply elem_of_cons in H as [->|H]; [auto using digit_range|]).
  by apply elem_of_nil in H.
Qed.

Lemma timestamp_no_dot d : ch "." ∉ timestamp d.
Proof. intros H. apply timestamp_chars in H as [H|H]; [cbn in H; lia | discriminate]. Qed.

Lemma timestamp_no_separator d : ch "/" ∉ timestamp d.
Proof. intros H. apply timestamp_chars in H as [H|H]; [cbn in H; lia | discriminate]. Qed.

Lemma digit_inj_step x y : digit x = digit y -> x / 10 = y / 10 -> x = y.
Proof.
  unfold digit. intros Hd Hq.
  pose proof (N.div_mod x 10 ltac:(discriminate)).
  pose proof (N.div_mod y 10 ltac:(discriminate)).
  name_divmod. lia.
Qed.

Lemma zpad2_inj a b : a < 100 -> b < 100 -> zpad2 a = zpad2 b -> a = b.
Proof.
  unfold zpad2. intros Ha Hb H. injection H as H1 H0.
  apply digit_inj_step; [exact H0|]. apply digit_inj_step; [exact H1|].
  rewrite !N.Div0.div_div, !N.div_small; [reflexivity|lia..].
Qed.

Lemma zpad4_inj a b : a < 10000 -> b < 10000 -> zpad4 a = zpad4 b -> a = b.
Proof.
  unfold zpad4. intros Ha Hb H. injection H as H3 H2 H1 H0.
  apply digit_inj_step; [exact H0|].
  apply digit_inj_step; [exact H1|]. rewrite !N.Div0.div_div.
  apply digit_inj_step; [exact H2|]. rewrite !N.Div0.div_div.
  apply digit_inj_step; [exact H3|].
  rewrite !N.Div0.div_div, !N.div_small; [reflexivity|lia..].
Qed.

(** Two valid readings with the same timestamp agree to the second. *)
Lemma timestamp_inj d1 d2 :
  valid_datetime d1 -> valid_datetime d2 ->
  timestamp d1 = timestamp d2 -> to_second d1 = to_second d2.
Proof.
  intros V1 V2. rewrite !timestamp_fields. unfold to_second.
  unfold valid_datetime in *.
  intros H.
  apply app_inj_1 in H as [Hy H]; [|reflexivity].
  apply app_inj_1 in H as [Hm H]; [|reflexivity].
  apply app_inj_1 in H as [Hd H]; [|reflexivity].
  apply app_inj_1 in H as [_ H]; [|reflexivity].
  apply app_inj_1 in H as [Hh H]; [|reflexivity].
  apply app_inj_1 in H as [Hmi Hs]; [|reflexivity].
  apply zpad4_inj in Hy; [|lia..].
  apply zpad2_inj in Hm; [|lia..]. apply zpad2_inj in Hd; [|lia..].
  apply zpad2_inj in Hh; [|lia..]. apply zpad2_inj in Hmi; [|lia..].
  apply zpad2_inj in Hs; [|lia..]. congruence.
Qed.

(* --------------------------------------------------------------------- *)
(** ** The stored name *)
(* --------------------------------------------------------------------- *)

Lemma add_timestamp_eq (d : datetime) (p : list N) :
  add_timestamp d p =
    fst (splitext p) ++ py "_" ++ timestamp d ++ snd (splitext p).
Proof. unfold add_timestamp. by destruct (splitext p). Qed.

Lemma add_timestamp_spec (d : datetime) (p : list N) :
  ch "/" ∉ p ->
  (exists k rest, p = repeat (ch ".") k ++ rest /\ (ch "." ∉ rest) /\
                  add_timestamp d p = p ++ py "_" ++ timestamp d) \/
  (exists a r, p = a ++ ch "." :: r /\ (ch "." ∉ r) /\
               add_timestamp d p = a ++ py "_" ++ timestamp d ++ ch "." :: r).
Proof.
  intros Hp. rewrite add_timestamp_eq.
  destruct (splitext_spec p Hp) as [(k & rest & E & Hr & ->)|(a & r & E & Hr & _ & ->)].
  - left. exists k, rest. cbn [fst snd]. by rewrite app_nil_r.
  - right. by exists a, r.
Qed.

Lemma add_timestamp_elem (d : datetime) (p : list N) (c : N) :
  c ∈ add_timestamp d p -> c ∈ p \/ c = ch "_" \/ c ∈ timestamp d.
Proof.
  rewrite add_timestamp_eq, !elem_of_app. pose proof (splitext_join p) as Hp.
  intros [H|[H|[H|H]]]; auto.
  - left. rewrite <- Hp, elem_of_app. by left.
  - apply list_elem_of_singleton in H. auto.
  - left. rewrite <- Hp, elem_of_app. by right.
Qed.

Lemma add_timestamp_underscore (d : datetime) (p : list N) :
  ch "_" ∈ add_timestamp d p.
Proof.
  rewrite add_timestamp_eq, !elem_of_app. right. left. apply list_elem_of_here.
Qed.

Lemma stored_name_no_separator (d : datetime) (f : list N) :
  ch "/" ∉ stored_name d f.
Proof.
  intros H. apply add_timestamp_elem in H as [H|[H|H]].
  - by apply sanitize_no_separator in H.
  - discriminate.
  - by apply timestamp_no_separator in H.
Qed.

Lemma last_dot_unique (a1 r1 a2 r2 : list N) :
  ch "." ∉ r1 -> ch "." ∉ r2 ->
  a1 ++ ch "." :: r1 = a2 ++ ch "." :: r2 -> a1 = a2 /\ r1 = r2.
Proof.
  intros H1 H2 E.
  assert (L : length a1 = length a2).
  { apply Nat2Z.inj. rewrite <- (rfind_last _ a1 r1 H1), <- (rfind_last _ a2 r2 H2).
    by rewrite E. }
  apply app_inj_1 in E as [-> E]; [|exact L]. by injection E as ->.
Qed.

Lemma stamp_suffix_inj (p1 p2 : list N) (d1 d2 : datetime) :
  p1 ++ py "_" ++ timestamp d1 = p2 ++ py "_" ++ timestamp d2 ->
  p1 = p2 /\ timestamp d1 = timestamp d2.
Proof.
  intros E. apply app_inj_2 in E as [-> E]; [|reflexivity].
  by apply app_inv_head in E.
Qed.

Lemma underscore_not_in_dots (k : nat) : ch "_" ∉ repeat (ch ".") k.
Proof.
  intros H. apply list_elem_of_In, repeat_spec in H. discriminate.
Qed.

(** A name with an extension is never a name without one. *)
Lemma stamp_shapes_differ (k : nat) (rest a r : list N) (d1 d2 : datetime) :
  ch "." ∉ rest -> ch "." ∉ r ->
  (repeat (ch ".") k ++ rest) ++ py "_" ++ timestamp d1 <>
  a ++ py "_" ++ timestamp d2 ++ ch "." :: r.
Proof.
  intros Hrest Hr E.
  assert (Htail : ch "." ∉ rest ++ py "_" ++ timestamp d1).
  { rewrite !not_elem_of_app. split; [done|]. split.
    - intros H. apply list_elem_of_singleton in H. discriminate.
    - apply timestamp_no_dot. }
  destruct k as [|k].
  - apply Htail. cbn [repeat app] in E. rewrite E, !elem_of_app.
    right. right. right. apply list_elem_of_here.
  - replace (S k) with (k + 1)%nat in E by lia.
    rewrite repeat_app in E. cbn [repeat] in E.
    replace (((repeat (ch ".") k ++ [ch "."]) ++ rest) ++ py "_" ++ timestamp d1)
      with (repeat (ch ".") k ++ ch "." :: (rest ++ py "_" ++ timestamp d1)) in E
      by (rewrite <- ?app_assoc; reflexivity).
    replace (a ++ py "_" ++ timestamp d2 ++ ch "." :: r)
      with ((a ++ py "_" ++ timestamp d2) ++ ch "." :: r) in E
      by (rewrite <- ?app_assoc; reflexivity).
    apply last_dot_unique in E as [E _]; [|done..].
    apply (underscore_not_in_dots k). rewrite E, !elem_of_app.
    right. left. apply list_elem_of_here.
Qed.

(** The stored name determines the sanitized name and the timestamp. *)
Lemma add_timestamp_inj (d1 d2 : datetime) (p1 p2 : list N) :
  ch "/" ∉ p1 -> ch "/" ∉ p2 ->
  add_timestamp d1 p1 = add_timestamp d2 p2 ->
  p1 = p2 /\ timestamp d1 = timestamp d2.
Proof.
  intros H1 H2 E.
  destruct (add_timestamp_spec d1 p1 H1) as [(k1 & t1 & P1 & D1 & E1)|(a1 & r1 & P1 & D1 & E1)];
  destruct (add_timestamp_spec d2 p2 H2) as [(k2 & t2 & P2 & D2 & E2)|(a2 & r2 & P2 & D2 & E2)];
  rewrite E1, E2 in E.
  - by apply stamp_suffix_inj.
  - rewrite P1 in E. by apply stamp_shapes_differ in E.
  - rewrite P2 in E. symmetry in E. by apply stamp_shapes_differ in E.
  - replace (a1 ++ py "_" ++ timestamp d1 ++ ch "." :: r1)
      with ((a1 ++ py "_" ++ timestamp d1) ++ ch "." :: r1) in E
      by (rewrite <- ?app_assoc; reflexivity).
    replace (a2 ++ py "_" ++ timestamp d2 ++ ch "." :: r2)
      with ((a2 ++ py "_" ++ timestamp d2) ++ ch "." :: r2) in E
      by (rewrite <- ?app_assoc; reflexivity).
    apply last_dot_unique in E as [E ->]; [|done..].
    apply stamp_suffix_inj in E as [-> ?]. by subst.
Qed.

Lemma stored_name_inj (d1 d2 : datetime) (f1 f2 : list N) :
  stored_name d1 f1 = stored_name d2 f2 ->
  sanitize f1 = sanitize f2 /\ timestamp d1 = timestamp d2.
Proof. apply add_timestamp_inj; apply sanitize_no_separator. Qed.

(* --------------------------------------------------------------------- *)
(** ** Paths *)
(* --------------------------------------------------------------------- *)

Lemma existsb_separator (s : list N) :
  existsb (N.eqb (ch "/")) s = false <-> ch "/" ∉ s.
Proof.
  rewrite <- Bool.not_true_iff_false, existsb_exists. split.
  - intros H Hin. apply H. exists (ch "/"). split; [by apply list_elem_of_In|reflexivity].
  - intros H (x & Hx & E). apply N.eqb_eq in E. subst x. by apply H, list_elem_of_In.
Qed.

Lemma split_no_separator (s : list N) :
  ch "/" ∉ s -> split (ch "/") s = [s].
Proof.
  induction s as [|c s IH]; [reflexivity|]. intros H.
  apply not_elem_of_cons in H as [Hc Hs]. cbn [split]. rewrite (IH Hs).
  destruct (N.eqb_spec c (ch "/")); congruence.
Qed.

(** A name that holds an underscore and no separator is one component. *)
Lemma parse_parts_name (n : list N) :
  ch "/" ∉ n -> ch "_" ∈ n -> parse_parts n = ([], [n]).
Proof.
  intros Hsep Hund. unfold parse_parts.
  assert (Hroot : splitroot n = ([], n)).
  { destruct n as [|c n]; [reflexivity|]. cbn [splitroot].
    apply not_elem_of_cons in Hsep as [Hc _].
    destruct (N.eqb_spec c (ch "/")); congruence. }
  rewrite Hroot. apply existsb_separator in Hsep. rewrite Hsep.
  assert (Hcomp : is_component n = true).
  { unfold is_component, str_eqb. rewrite !bool_decide_eq_false_2; [done|..];
      intros ->; [|by apply elem_of_nil in Hund].
    apply list_elem_of_singleton in Hund. discriminate. }
  by rewrite Hcomp.
Qed.

Lemma underscore_not_dotdot (n : list N) : ch "_" ∈ n -> n <> py "..".
Proof.
  intros H ->. cbn in H. repeat (apply elem_of_cons in H as [H|H]; [discriminate|]).
  by apply elem_of_nil in H.
Qed.

Lemma truediv_name (dir : PurePath) (n : list N) :
  ch "/" ∉ n -> ch "_" ∈ n -> truediv dir n = make_child_relpath dir n.
Proof. intros H1 H2. unfold truediv. by rewrite parse_parts_name. Qed.

Lemma entry_name_child (dir : PurePath) (n : list N) :
  n <> py ".." -> entry_name dir (make_child_relpath dir n) = Some n.
Proof.
  intros Hn. unfold entry_name, make_child_relpath. cbn [root parts].
  rewrite bool_decide_eq_true_2 by reflexivity.
  rewrite drop_app_length, take_app_length.
  rewrite bool_decide_eq_true_2 by reflexivity.
  unfold str_eqb. by rewrite bool_decide_eq_false_2.
Qed.

Lemma resolve_child (cwd : list (list N)) (dir : PurePath) (n : list N) :
  n <> py ".." ->
  resolve cwd (make_child_relpath dir n) = resolve cwd dir ++ [n].
Proof.
  intros Hn. unfold resolve, make_child_relpath, is_absolute, walk.
  cbn [root parts]. rewrite fold_left_app. cbn [fold_left].
  unfold str_eqb. rewrite bool_decide_eq_false_2 by exact Hn.
  reflexivity.
Qed.

Lemma inside_child (cwd : list (list N)) (dir : PurePath) (n : list N) :
  n <> py ".." -> inside cwd dir (make_child_relpath dir n) = true.
Proof.
  intros Hn. unfold inside. rewrite (resolve_child cwd dir n Hn).
  rewrite take_app_length, bool_decide_eq_true_2 by reflexivity.
  rewrite length_app. cbn. apply Nat.ltb_lt. lia.
Qed.

Lemma stored_name_path (dir : PurePath) (d : datetime) (f : list N) :
  truediv dir (stored_name d f) = make_child_relpath dir (stored_name d f).
Proof.
  apply truediv_name; [apply stored_name_no_separator|apply add_timestamp_underscore].
Qed.

Lemma stored_name_not_dotdot (d : datetime) (f : list N) :
  stored_name d f <> py "..".
Proof. apply underscore_not_dotdot, add_timestamp_underscore. Qed.

(* --------------------------------------------------------------------- *)
(** ** The form *)
(* --------------------------------------------------------------------- *)

Lemma existsb_filter {A} (p : A -> bool) (l : list A) :
  existsb p l = match List.filter p l with [] => false | _ => true end.
Proof.
  induction l as [|x l IH]; [reflexivity|]. cbn [existsb List.filter].
  destruct (p x); [reflexivity|exact IH].
Qed.

Lemma contains_one (form : FieldStorage) (key : list N) (l : list field) (f : field) :
  fields form = Some l -> List.filter (named key) l = [f] ->
  FieldStorage_contains form key = Ok true.
Proof.
  intros Hl Hf. unfold FieldStorage_contains.
  by rewrite Hl, existsb_filter, Hf.
Qed.

Lemma getitem_one (form : FieldStorage) (key : list N) (l : list field) (f : field) :
  fields form = Some l -> List.filter (named key) l = [f] ->
  FieldStorage_getitem form key = Ok (OneField f).
Proof. intros Hl Hf. unfold FieldStorage_getitem. by rewrite Hl, Hf. Qed.

(* --------------------------------------------------------------------- *)
(** ** [do_POST] on an upload *)
(* --------------------------------------------------------------------- *)

Lemma str_eqb_refl (s : list N) : str_eqb s s = true.
Proof. unfold str_eqb. by apply bool_decide_eq_true_2. Qed.

(** What is left of the handler once the form has been read: the
    directory is made, the bytes are written under the stored name. *)
Lemma do_POST_file_part (cfg : config) (os : os_env) (req : request)
    (fs : filesystem) (f : field) (fn : list N) (data : list byte) :
  upload_of req f -> value f = FileValue fn data ->
  let filepath := make_child_relpath (UPLOAD_DIR cfg) (stored_name (now os) fn) in
  do_POST cfg os req fs =
    try_except
      (let* _ := mkdir os in
       let* _ := write_bytes (UPLOAD_DIR cfg) os filepath data in
       ret (send_json (success filepath (length data)) 200))
      (fun e fs' => (send_json (failure (exn_str e)) 500, fs')) fs.
Proof.
  intros (Hpath & Hct & form & l & Hform & Hl & Hf) Hv filepath.
  unfold do_POST. rewrite Hpath, str_eqb_refl.
  unfold upload. rewrite Hct, Hform.
  unfold try_except, bind, lift. cbv beta iota.
  rewrite (contains_one _ _ _ _ Hl Hf). cbv beta iota.
  rewrite (getitem_one _ _ _ _ Hl Hf).
  unfold item_filename, item_read, filename, file_read.
  rewrite Hv. cbn [negb sanitize_filename as_bytes]. cbv beta iota.
  fold (stored_name (now os) fn). rewrite stored_name_path.
  reflexivity.
Qed.

(** A part named [file] that carries no filename: [re.sub] raises, the
    handler answers 500 and the file system is as before. *)
Lemma do_POST_text_part (cfg : config) (os : os_env) (req : request)
    (fs : filesystem) (f : field) (text : list N) :
  upload_of req f -> value f = TextValue text ->
  do_POST cfg os req fs =
    (send_json (failure (exn_str expected_string)) 500, fs).
Proof.
  intros (Hpath & Hct & form & l & Hform & Hl & Hf) Hv.
  unfold do_POST. rewrite Hpath, str_eqb_refl.
  unfold upload. rewrite Hct, Hform.
  unfold try_except, bind, lift. cbv beta iota.
  rewrite (contains_one _ _ _ _ Hl Hf). cbv beta iota.
  rewrite (getitem_one _ _ _ _ Hl Hf).
  unfold item_filename, item_read, filename, file_read.
  rewrite Hv. reflexivity.
Qed.

(** The outcomes of making the directory and writing the file. *)
Lemma store_outcome (cfg : config) (os : os_env) (fs : filesystem)
    (n : list N) (data : list byte) :
  n <> py ".." ->
  let filepath := make_child_relpath (UPLOAD_DIR cfg) n in
  let d := default ∅ (upload_dir fs) in
  let file := {| st_type := Regular; content := written os data;
                 st_mtime := write_mtime os |} in
  let made := {| upload_dir := Some d; written_elsewhere := written_elsewhere fs |} in
  let stored := {| upload_dir := Some (<[n := file]> d);
                   written_elsewhere := written_elsewhere fs |} in
  try_except
    (let* _ := mkdir os in
     let* _ := write_bytes (UPLOAD_DIR cfg) os filepath data in
     ret (send_json (success filepath (length data)) 200))
    (fun e fs' => (send_json (failure (exn_str e)) 500, fs')) fs =
  match mkdir_error os with
  | Some e => (send_json (failure (exn_str e)) 500, fs)
  | None =>
      match st_type <$> d !! n with
      | Some Directory =>
          (send_json (failure (exn_str (IsADirectoryError filepath))) 500, made)
      | _ =>
          match open_error os with
          | Some e => (send_json (failure (exn_str e)) 500, made)
          | None =>
              match write_error os with
              | Some (_, e) => (send_json (failure (exn_str e)) 500, stored)
              | None => (send_json (success filepath (length data)) 200, stored)
              end
          end
      end
  end.
Proof.
  intros Hn filepath d file made stored.
  unfold try_except, bind, mkdir, write_bytes, write_outcome, ret.
  destruct (mkdir_error os); [reflexivity|].
  unfold filepath. rewrite (entry_name_child _ _ Hn). cbn [upload_dir written_elsewhere].
  fold d. destruct (st_type <$> d !! n) as [[]|]; try reflexivity;
    destruct (open_error os); try reflexivity;
    destruct (write_error os) as [[? ?]|]; reflexivity.
Qed.

(** Whatever the request, [do_POST] leaves the file system as it was, or
    with the storage directory made, or with one regular file written
    under the stored name of the uploaded file. *)
Lemma do_POST_post_state (cfg : config) (os : os_env) (req : request)
    (fs : filesystem) :
  let fs' := snd (do_POST cfg os req fs) in
  let d := default ∅ (upload_dir fs) in
  fs' = fs \/
  fs' = {| upload_dir := Some d; written_elsewhere := written_elsewhere fs |} \/
  exists fn file,
    st_type file = Regular /\
    fs' = {| upload_dir := Some (<[stored_name (now os) fn := file]> d);
             written_elsewhere := written_elsewhere fs |}.
Proof.
  intros fs' d. subst fs'.
  destruct (str_eqb (path req) (py "/upload")) eqn:Hpath;
    [|left; unfold do_POST; by rewrite Hpath].
  apply bool_decide_eq_true in Hpath.
  destruct (str_contains (py "multipart/form-data")
              (default [] (header_content_type req))) eqn:Hct;
    [|left; unfold do_POST, upload; by rewrite Hpath, str_eqb_refl, Hct].
  destruct (form_data req) as [form|e] eqn:Hform;
    [|left; unfold do_POST, upload; by rewrite Hpath, str_eqb_refl, Hct, Hform].
  destruct (fields form) as [l|] eqn:Hl;
    [|left; unfold do_POST, upload, try_except, bind, lift, FieldStorage_contains;
      by rewrite Hpath, str_eqb_refl, Hct, Hform, Hl].
  destruct (List.filter (named (py "file")) l) as [|f [|g found]] eqn:Hf.
  - left. unfold do_POST, upload, try_except, bind, lift, FieldStorage_contains.
    by rewrite Hpath, str_eqb_refl, Hct, Hform, Hl, existsb_filter, Hf.
  - assert (Hup : upload_of req f) by (split; [done|split; [done|by exists form, l]]).
    destruct (value f) as [fn data|text] eqn:Hv.
    + rewrite (do_POST_file_part cfg os req fs f fn data Hup Hv).
      rewrite (store_outcome cfg os fs _ data (stored_name_not_dotdot _ _)).
      fold d.
      destruct (mkdir_error os); [by left|].
      destruct (st_type <$> d !! stored_name (now os) fn) as [[]|];
        try (by right; left);
        destruct (open_error os); try (by right; left);
        destruct (write_error os) as [[? ?]|]; right; right;
        eexists _, _; (split; [|cbn [snd]; reflexivity]); reflexivity.
    + left. by rewrite (do_POST_text_part cfg os req fs f text Hup Hv).
  - left. unfold do_POST, upload, try_except, bind, lift, FieldStorage_contains,
      FieldStorage_getitem.
    by rewrite Hpath, str_eqb_refl, Hct, Hform, Hl, existsb_filter, Hf.
Qed.

Lemma do_POST_nothing_elsewhere (cfg : config) (os : os_env) (req : request)
    (fs : filesystem) :
  written_elsewhere (snd (do_POST cfg os req fs)) = written_elsewhere fs.
Proof.
  destruct (do_POST_post_state cfg os req fs) as [->|[->|(fn & file & _ & ->)]];
    reflexivity.
Qed.

Lemma entry_made (fs : filesystem) (n : list N) (w : list (PurePath * list byte)) :
  entry {| upload_dir := Some (default ∅ (upload_dir fs)); written_elsewhere := w |} n
  = entry fs n.
Proof. unfold entry. cbn. by destruct (upload_dir fs). Qed.

(** An upload rewrites the entry of its stored name and no other. *)
Lemma do_POST_other_entries (cfg : config) (os : os_env) (req : request)
    (fs : filesystem) (n : list N) :
  (forall fn, n <> stored_name (now os) fn) ->
  entry (snd (do_POST cfg os req fs)) n = entry fs n.
Proof.
  intros Hn.
  destruct (do_POST_post_state cfg os req fs) as [->|[->|(fn & file & _ & ->)]].
  - reflexivity.
  - apply entry_made.
  - rewrite <- (entry_made fs n (written_elsewhere fs)). unfold entry.
    cbn [upload_dir]. apply lookup_insert_ne. by apply not_eq_sym.
Qed.

(** No entry is removed. *)
Lemma do_POST_keeps_entries (cfg : config) (os : os_env) (req : request)
    (fs : filesystem) (n : list N) :
  is_Some (entry fs n) -> is_Some (entry (snd (do_POST cfg os req fs)) n).
Proof.
  intros Hn.
  destruct (do_POST_post_state cfg os req fs) as [->|[->|(fn & file & _ & ->)]].
  - exact Hn.
  - by rewrite entry_made.
  - rewrite <- (entry_made fs n (written_elsewhere fs)) in Hn. unfold entry in *.
    cbn [upload_dir] in *. rewrite lookup_insert.
    by destruct (decide _).
Qed.

Lemma do_GET_reads_only (cfg : config) (os : os_env) (req : request)
    (fs : filesystem) :
  snd (do_GET cfg os req fs) = fs.
Proof. unfold do_GET. by repeat destruct (str_eqb _ _). Qed.

(* --------------------------------------------------------------------- *)
(** ** Scenarios *)
(* --------------------------------------------------------------------- *)

Lemma multipart_upload_of (f : field) :
  name f = Some (py "file") -> upload_of (multipart [f]) f.
Proof.
  intros Hf. split; [reflexivity|]. split; [reflexivity|].
  exists {| fields := Some [f] |}, [f]. split; [reflexivity|]. split; [reflexivity|].
  cbn [List.filter]. unfold named. by rewrite bool_decide_eq_true_2.
Defined.

(* --------------------------------------------------------------------- *)
(** ** C1: the write path *)
(* --------------------------------------------------------------------- *)

Lemma sanitize_dotdot (f : list N) : sanitize f = py ".." <-> f = py "..".
Proof.
  split; [|by intros ->].
  rewrite sanitize_map. destruct f as [|a [|b [|c f]]]; try discriminate.
  cbn [List.map]. intros H. injection H as Ha Hb.
  destruct (kept a); [|discriminate]. destruct (kept b); [|discriminate].
  by subst.
Qed.

Lemma dotdot_segment_one (s : list N) :
  ch "/" ∉ s -> has_dotdot_segment s = true <-> s = py "..".
Proof.
  intros Hs. unfold has_dotdot_segment. rewrite (split_no_separator s Hs).
  cbn [existsb]. rewrite orb_false_r. unfold str_eqb. apply bool_decide_eq_true.
Qed.

(** C1, at the file name [..]: the sanitizer keeps dots, so the name
    comes back unchanged, still a [..] segment, and joined to the
    storage directory as it is it names the parent of that directory. *)
Lemma C1_dotdot_survives_the_sanitizer :
  has_dotdot_segment (py "..") = true /\
  sanitize (py "..") = py ".." /\
  has_dotdot_segment (sanitize (py "..")) = true /\
  resolve [] (UPLOAD_DIR default_config) = [py "home"; py "claude"; py "share"] /\
  resolve [] (truediv (UPLOAD_DIR default_config) (sanitize (py "..")))
    = [py "home"; py "claude"] /\
  inside [] (UPLOAD_DIR default_config)
    (truediv (UPLOAD_DIR default_config) (sanitize (py ".."))) = false.
Proof. vm_compute. repeat split; reflexivity. Qed.

(** C1, amended: for every file name the sanitized name holds no path
    separator, and it is a [..] segment only when the file name is [..]
    itself; the name the file is stored under (sanitized base,
    underscore, timestamp, extension) holds no path separator and is no
    [..] segment, so the write path is the entry of that name in the
    storage directory and resolves to a child of it; and whatever the
    request, the handler writes nothing outside the entries of the
    storage directory. The code has no check of its own that rejects an
    escaping path. *)
Theorem C1_upload_is_written_inside_the_storage_directory
    (cfg : config) (os : os_env) (cwd : list (list N)) (f : list N)
    (req : request) (fs : filesystem) :
  let stored := stored_name (now os) f in
  let filepath := truediv (UPLOAD_DIR cfg) stored in
  has_separator (sanitize f) = false /\
  (has_dotdot_segment (sanitize f) = true <-> f = py "..") /\
  has_separator stored = false /\
  has_dotdot_segment stored = false /\
  filepath = make_child_relpath (UPLOAD_DIR cfg) stored /\
  entry_name (UPLOAD_DIR cfg) filepath = Some stored /\
  resolve cwd filepath = resolve cwd (UPLOAD_DIR cfg) ++ [stored] /\
  inside cwd (UPLOAD_DIR cfg) filepath = true /\
  written_elsewhere (snd (do_POST cfg os req fs)) = written_elsewhere fs.
Proof.
  intros stored filepath.
  pose proof (stored_name_no_separator (now os) f) as Hsep.
  pose proof (stored_name_not_dotdot (now os) f) as Hdd.
  assert (Hpath : filepath = make_child_relpath (UPLOAD_DIR cfg) stored)
    by apply stored_name_path.
  repeat split.
  - apply existsb_separator, sanitize_no_separator.
  - intros H. by apply sanitize_dotdot, dotdot_segment_one, H; apply sanitize_no_separator.
  - intros H. apply dotdot_segment_one; [apply sanitize_no_separator|].
    by apply sanitize_dotdot.
  - by apply existsb_separator.
  - apply Bool.not_true_iff_false. intros H.
    by apply dotdot_segment_one in H.
  - exact Hpath.
  - rewrite Hpath. by apply entry_name_child.
  - rewrite Hpath. by apply resolve_child.
  - rewrite Hpath. by apply inside_child.
  - apply do_POST_nothing_elsewhere.
Qed.

(* --------------------------------------------------------------------- *)
(** ** C9: the empty file name *)
(* --------------------------------------------------------------------- *)

(** C9, at the empty file name: the base is empty and the stored name
    starts with the underscore that precedes the timestamp; no
    placeholder stands in for the base. *)
Lemma C9_empty_filename_has_empty_base :
  fst (splitext (sanitize [])) = [] /\
  stored_name jan15 [] = py "_20240115_103000" /\
  fst (do_POST default_config (quiet_os jan15) (multipart [file_part [] []]) empty_fs)
  = send_json (success (Path (py "/home/claude/share/_20240115_103000")) 0) 200.
Proof. vm_compute. repeat split; reflexivity. Qed.

(** C9, amended: for the empty file name the sanitized name, its base
    and its extension are empty, and the stored name is an underscore
    followed by the timestamp. *)
Theorem C9_empty_filename_is_stored_as_timestamp (clock : datetime) :
  sanitize [] = [] /\
  splitext (sanitize []) = ([], []) /\
  stored_name clock [] = py "_" ++ timestamp clock.
Proof. repeat split; reflexivity. Qed.

(* --------------------------------------------------------------------- *)
(** ** C4: the format of the stored name *)
(* --------------------------------------------------------------------- *)






(* --------------------------------------------------------------------- *)
(** ** C10 and C5: requests that are no upload *)
(* --------------------------------------------------------------------- *)

(** C10: a multipart POST to [/upload] whose part named [file] has no
    filename is answered with status 500 and a JSON failure whose message
    is the text of the [TypeError], not ["No file provided"]; the file
    system is left as it was. *)
Theorem C10_file_part_without_filename_gets_500
    (cfg : config) (os : os_env) (req : request) (fs : filesystem)
    (f : field) (text : list N) :
  upload_of req f -> value f = TextValue text ->
  do_POST cfg os req fs = (send_json (failure (exn_str expected_string)) 500, fs) /\
  status (fst (do_POST cfg os req fs)) = 500 /\
  exn_str expected_string <> py "No file provided".
Proof.
  intros Hup Hv. rewrite (do_POST_text_part cfg os req fs f text Hup Hv).
  repeat split. discriminate.
Qed.

(** C10 at a form whose [file] field is the plain value [hello]. *)
Lemma C10_plain_value_named_file :
  do_POST default_config (quiet_os jan15)
    (multipart [text_part (py "file") (py "hello")]) empty_fs
  = (send_json (failure (exn_str expected_string)) 500, empty_fs).
Proof.
  apply (C10_file_part_without_filename_gets_500 default_config (quiet_os jan15)
           (multipart [text_part (py "file") (py "hello")]) empty_fs
           (text_part (py "file") (py "hello")) (py "hello")).
  - apply multipart_upload_of. reflexivity.
  - reflexivity.
Defined.



(* --------------------------------------------------------------------- *)
(** ** C3 and C6: the outcome of an upload *)
(* --------------------------------------------------------------------- *)

Lemma entry_default (fs : filesystem) (n : list N) :
  default ∅ (upload_dir fs) !! n = entry fs n.
Proof. unfold entry. by destruct (upload_dir fs). Qed.









(* --------------------------------------------------------------------- *)
(** ** C7: the listing *)
(* --------------------------------------------------------------------- *)

Section sorting.

Implicit Types (x y : list N * inode) (l : list (list N * inode)).

Lemma insert_by_mtime_perm x l : insert_by_mtime x l ≡ₚ x :: l.
Proof.
  induction l as [|y l IH]; [reflexivity|]. cbn [insert_by_mtime].
  destruct (_ <? _)%Z; [|reflexivity].
  rewrite IH. apply Permutation_swap.
Qed.

Lemma sorted_by_mtime_reverse_perm l : sorted_by_mtime_reverse l ≡ₚ l.
Proof.
  induction l as [|x l IH]; [reflexivity|]. cbn [sorted_by_mtime_reverse foldr].
  rewrite insert_by_mtime_perm. by apply Permutation_cons.
Qed.





End sorting.

Lemma listed_elem (fs : filesystem) (n : list N) (node : inode) :
  (n, node) ∈ listed fs <-> entry fs n = Some node /\ st_type node = Regular.
Proof.
  unfold listed, entry. destruct (upload_dir fs) as [d|].
  - rewrite list_elem_of_In, filter_In, <- list_elem_of_In.
    rewrite sorted_by_mtime_reverse_perm, elem_of_map_to_list.
    unfold is_file. cbn [snd].
    destruct (st_type node); split; intros [H1 H2]; try discriminate; auto.
  - split; [intros H; by apply elem_of_nil in H|by intros [? _]].
Qed.






Example listing_of_shared_fs :
  fst (do_GET default_config (quiet_os jan15) (get (py "/files")) shared_fs) =
  send_json
    (JList
       [JDict [(py "name", JStr (py "b.bin"));
               (py "path", JStr (py "/home/claude/share/b.bin"));
               (py "size", JStr (py "1.2 KB"));
               (py "time", JStr (py "2024-01-15 10:30:00"))];
        JDict [(py "name", JStr (py "a.txt"));
               (py "path", JStr (py "/home/claude/share/a.txt"));
               (py "size", JStr (py "1 B"));
               (py "time", JStr (py "2024-01-15 10:30:00"))]]) 200.
Proof. vm_compute. reflexivity. Qed.


(* --------------------------------------------------------------------- *)
(** ** C8: stored files under later requests *)
(* --------------------------------------------------------------------- *)

(** C8, at two uploads of [a.txt] within one second: both succeed, they
    share the stored name, and the second replaces what the first
    stored; the listing shows one file. *)
Lemma C8_same_second_upload_overwrites :
  status (fst (do_POST default_config (quiet_os jan15)
                 (multipart [file_part (py "a.txt") [x01]]) empty_fs)) = 200 /\
  content <$> entry after_first_upload (py "a_20240115_103000.txt") = Some [x01] /\
  status (fst (do_POST default_config (quiet_os jan15)
                 (multipart [file_part (py "a.txt") [x02; x03]])
                 after_first_upload)) = 200 /\
  content <$> entry after_second_upload (py "a_20240115_103000.txt")
    = Some [x02; x03] /\
  length (listed after_second_upload) = 1%nat.
Proof. vm_compute. repeat split; reflexivity. Qed.

(** A success result means the payload is the content of the file of
    the stored name. *)
Lemma upload_succeeded (cfg : config) (os : os_env) (req : request)
    (fs : filesystem) (f : field) (fn : list N) (data : list byte) :
  upload_of req f -> value f = FileValue fn data ->
  status (fst (do_POST cfg os req fs)) = 200 ->
  entry (snd (do_POST cfg os req fs)) (stored_name (now os) fn) =
    Some {| st_type := Regular; content := data; st_mtime := write_mtime os |}.
Proof.
  intros Hup Hv.
  rewrite (do_POST_file_part cfg os req fs f fn data Hup Hv).
  rewrite (store_outcome cfg os fs _ data (stored_name_not_dotdot _ _)).
  unfold written.
  destruct (mkdir_error os); [discriminate|].
  destruct (st_type <$> _) as [[]|]; try discriminate;
    destruct (open_error os); try discriminate;
    destruct (write_error os) as [[? ?]|]; try discriminate;
    intros _; unfold entry; cbn [snd upload_dir]; apply lookup_insert_eq.
Qed.

(** Clock readings that differ in the second give different stored
    names, whatever the file names. *)
Lemma stored_name_differs (d1 d2 : datetime) (f1 f2 : list N) :
  valid_datetime d1 -> valid_datetime d2 -> to_second d1 <> to_second d2 ->
  stored_name d1 f1 <> stored_name d2 f2.
Proof.
  intros V1 V2 Hne E. apply stored_name_inj in E as [_ E].
  by apply Hne, timestamp_inj.
Qed.

(** C8, amended: a listing changes nothing, and no request removes an
    entry of the storage directory. An upload rewrites the entry of its
    own stored name and no other; the stored name is fixed by the
    sanitized file name and the clock reading to the second. So the file
    stored by a completed upload keeps its content under every later
    request whose clock reading differs from its own in the second, and
    uploading the same file name again at such a reading yields two
    distinct files in the listing, each with its own content. (Two
    uploads of one sanitized name in the same second share the stored
    name, and the later one replaces the file.) *)
Theorem C8_stored_files_survive_later_requests
    (cfg : config) (os1 os2 : os_env) (req1 req2 : request) (fs : filesystem)
    (f1 : field) (fn : list N) (data1 : list byte) :
  valid_datetime (now os1) -> valid_datetime (now os2) ->
  to_second (now os1) <> to_second (now os2) ->
  upload_of req1 f1 -> value f1 = FileValue fn data1 ->
  status (fst (do_POST cfg os1 req1 fs)) = 200 ->
  let fs1 := snd (do_POST cfg os1 req1 fs) in
  let fs2 := snd (do_POST cfg os2 req2 fs1) in
  let stored1 := stored_name (now os1) fn in
  let stored2 := stored_name (now os2) fn in
  (exists file1, entry fs1 stored1 = Some file1 /\
                 st_type file1 = Regular /\ content file1 = data1) /\
  (forall os req, snd (do_GET cfg os req fs1) = fs1) /\
  entry fs2 stored1 = entry fs1 stored1 /\
  (forall n, is_Some (entry fs1 n) -> is_Some (entry fs2 n)) /\
  (forall n, (forall fn2, n <> stored_name (now os2) fn2) ->
             entry fs2 n = entry fs1 n) /\
  (forall f2 data2,
     upload_of req2 f2 -> value f2 = FileValue fn data2 ->
     status (fst (do_POST cfg os2 req2 fs1)) = 200 ->
     stored1 <> stored2 /\
     exists file1 file2,
       (stored1, file1) ∈ listed fs2 /\ (stored2, file2) ∈ listed fs2 /\
       content file1 = data1 /\ content file2 = data2).
Proof.
  intros V1 V2 Hne Hup Hv Hok fs1 fs2 stored1 stored2.
  pose proof (upload_succeeded cfg os1 req1 fs f1 fn data1 Hup Hv Hok) as H1.
  assert (Hkeep : entry fs2 stored1 = entry fs1 stored1).
  { apply do_POST_other_entries. intros fn2. by apply stored_name_differs. }
  split; [|split; [|split; [|split; [|split]]]].
  - eexists. split; [exact H1|]. split; reflexivity.
  - intros os req. apply do_GET_reads_only.
  - exact Hkeep.
  - intros n. apply do_POST_keeps_entries.
  - intros n. apply do_POST_other_entries.
  - intros f2 data2 Hup2 Hv2 Hok2.
    pose proof (upload_succeeded cfg os2 req2 fs1 f2 fn data2 Hup2 Hv2 Hok2) as H2.
    split; [by apply stored_name_differs|].
    eexists _, _. split; [|split; [|split]].
    + apply listed_elem. split; [rewrite Hkeep; exact H1|reflexivity].
    + apply listed_elem. split; [exact H2|reflexivity].
    + reflexivity.
    + reflexivity.
Qed.

(** C8 at two uploads of [a.txt] two seconds apart. *)
Lemma C8_uploads_two_seconds_apart :
  stored_name jan15 (py "a.txt") <> stored_name two_seconds_later (py "a.txt") /\
  exists file1 file2,
    let fs2 :=
      snd (do_POST default_config (quiet_os two_seconds_later)
             (multipart [file_part (py "a.txt") [x02; x03]]) after_first_upload) in
    (stored_name jan15 (py "a.txt"), file1) ∈ listed fs2 /\
    (stored_name two_seconds_later (py "a.txt"), file2) ∈ listed fs2 /\
    content file1 = [x01] /\ content file2 = [x02; x03].
Proof.
  assert (V1 : valid_datetime jan15) by (unfold valid_datetime; cbn; lia).
  assert (V2 : valid_datetime two_seconds_later) by (unfold valid_datetime; cbn; lia).
  assert (Hne : to_second jan15 <> to_second two_seconds_later) by discriminate.
  pose proof (C8_stored_files_survive_later_requests default_config
                (quiet_os jan15) (quiet_os two_seconds_later)
                (multipart [file_part (py "a.txt") [x01]])
                (multipart [file_part (py "a.txt") [x02; x03]])
                empty_fs (file_part (py "a.txt") [x01]) (py "a.txt") [x01]
                V1 V2 Hne
                (multipart_upload_of (file_part (py "a.txt") [x01]) eq_refl)
                eq_refl eq_refl) as (_ & _ & _ & _ & _ & H).
  exact (H (file_part (py "a.txt") [x02; x03]) [x02; x03]
           (multipart_upload_of (file_part (py "a.txt") [x02; x03]) eq_refl)
           eq_refl eq_refl).
Defined.

(* --------------------------------------------------------------------- *)
(** ** More on [do_POST]: every branch of the handler *)
(* --------------------------------------------------------------------- *)

(** A POST to [/upload] is either turned down before anything is done,
    with status 400 or 500, or it carries one part named [file] with a
    file name. *)
Lemma do_POST_rejected_or_upload (cfg : config) (os : os_env) (req : request)
    (fs : filesystem) :
  path req = py "/upload" ->
  (exists msg st, (st = 400 \/ st = 500) /\
     do_POST cfg os req fs = (send_json (failure msg) st, fs)) \/
  (exists f fn data, upload_of req f /\ value f = FileValue fn data).
Proof.
  intros Hpath.
  destruct (str_contains (py "multipart/form-data")
              (default [] (header_content_type req))) eqn:Hct.
  2:{ left. eexists _, 400. split; [by left|].
      unfold do_POST, upload. by rewrite Hpath, str_eqb_refl, Hct. }
  destruct (form_data req) as [form|e] eqn:Hform.
  2:{ left. eexists _, 500. split; [by right|].
      unfold do_POST, upload. by rewrite Hpath, str_eqb_refl, Hct, Hform. }
  destruct (fields form) as [l|] eqn:Hl.
  2:{ left. eexists _, 500. split; [by right|].
      unfold do_POST, upload, try_except, bind, lift, FieldStorage_contains.
      by rewrite Hpath, str_eqb_refl, Hct, Hform, Hl. }
  destruct (List.filter (named (py "file")) l) as [|f [|g found]] eqn:Hf.
  - left. eexists _, 400. split; [by left|].
    unfold do_POST, upload, try_except, bind, lift, FieldStorage_contains.
    by rewrite Hpath, str_eqb_refl, Hct, Hform, Hl, existsb_filter, Hf.
  - assert (Hup : upload_of req f) by (split; [done|split; [done|by exists form, l]]).
    destruct (value f) as [fn data|text] eqn:Hv.
    + right. by exists f, fn, data.
    + left. eexists _, 500. split; [by right|].
      apply (do_POST_text_part cfg os req fs f text Hup Hv).
  - left. eexists _, 500. split; [by right|].
    unfold do_POST, upload, try_except, bind, lift, FieldStorage_contains,
      FieldStorage_getitem.
    by rewrite Hpath, str_eqb_refl, Hct, Hform, Hl, existsb_filter, Hf.
Qed.

(** X2: every answer to a POST to [/upload] is JSON; it is either the
    success object, with status 200, or a failure object with an error
    message, with status 400 or 500. *)
Theorem X2_upload_answers_are_success_or_failure_objects
    (cfg : config) (os : os_env) (req : request) (fs : filesystem) :
  path req = py "/upload" ->
  let resp := fst (do_POST cfg os req fs) in
  content_type resp = Some (py "application/json") /\
  ((status resp = 200 /\
    exists p n, body resp =
      JsonBody (JDict [(py "success", JBool true); (py "path", JStr p);
                       (py "size", JInt n)])) \/
   ((status resp = 400 \/ status resp = 500) /\
    exists msg, body resp =
      JsonBody (JDict [(py "success", JBool false); (py "error", JStr msg)]))).
Proof.
  intros Hpath resp. subst resp.
  destruct (do_POST_rejected_or_upload cfg os req fs Hpath)
    as [(msg & st & Hst & ->)|(f & fn & data & Hup & Hv)].
  - split; [reflexivity|]. right. split; [exact Hst|by exists msg].
  - rewrite (do_POST_file_part cfg os req fs f fn data Hup Hv).
    rewrite (store_outcome cfg os fs _ data (stored_name_not_dotdot _ _)).
    destruct (mkdir_error os);
      [split; [reflexivity|right; split; [by right|by eexists]]|].
    destruct (st_type <$> _) as [[]|];
      try (split; [reflexivity|right; split; [by right|by eexists]]);
      (destruct (open_error os);
        [split; [reflexivity|right; split; [by right|by eexists]]|]);
      (destruct (write_error os) as [[? ?]|];
        [split; [reflexivity|right; split; [by right|by eexists]]|]);
      (split; [reflexivity|left; split; [reflexivity|by eexists _, _]]).
Qed.

(** X2 at a form with the one field [note]. *)
Lemma X2_form_without_file_is_a_failure_object :
  content_type
    (fst (do_POST default_config (quiet_os jan15)
            (multipart [text_part (py "note") (py "hello")]) empty_fs))
  = Some (py "application/json").
Proof.
  exact (proj1 (X2_upload_answers_are_success_or_failure_objects default_config
                  (quiet_os jan15)
                  (multipart [text_part (py "note") (py "hello")]) empty_fs
                  eq_refl)).
Defined.

(** X3: status 200 is sent only for a request whose one part named
    [file] carries a file name, after [mkdir], [open] and [write] all
    succeeded; the answer then gives the path of the stored name and the
    length of the payload, and the entry of the stored name is a regular
    file that holds the whole payload. *)
Theorem X3_success_means_the_payload_is_stored
    (cfg : config) (os : os_env) (req : request) (fs : filesystem) :
  status (fst (do_POST cfg os req fs)) = 200 ->
  exists f fn data,
    upload_of req f /\ value f = FileValue fn data /\
    mkdir_error os = None /\ open_error os = None /\ write_error os = None /\
    fst (do_POST cfg os req fs) =
      send_json
        (JDict [(py "success", JBool true);
                (py "path",
                 JStr (path_str (truediv (UPLOAD_DIR cfg) (stored_name (now os) fn))));
                (py "size", JInt (Z.of_nat (length data)))]) 200 /\
    entry (snd (do_POST cfg os req fs)) (stored_name (now os) fn) =
      Some {| st_type := Regular; content := data; st_mtime := write_mtime os |}.
Proof.
  intros Hok.
  destruct (str_eqb (path req) (py "/upload")) eqn:Hpath;
    [|unfold do_POST in Hok; rewrite Hpath in Hok; discriminate].
  apply bool_decide_eq_true in Hpath.
  destruct (do_POST_rejected_or_upload cfg os req fs Hpath)
    as [(msg & st & Hst & E)|(f & fn & data & Hup & Hv)].
  - rewrite E in Hok. cbn in Hok. destruct Hst; subst st; discriminate.
  - exists f, fn, data. split; [exact Hup|]. split; [exact Hv|].
    pose proof (upload_succeeded cfg os req fs f fn data Hup Hv Hok) as Hentry.
    assert (Hos : mkdir_error os = None /\ open_error os = None /\
                  write_error os = None /\
                  fst (do_POST cfg os req fs) =
                    send_json
                      (success (make_child_relpath (UPLOAD_DIR cfg)
                                  (stored_name (now os) fn)) (length data)) 200).
    { revert Hok. rewrite (do_POST_file_part cfg os req fs f fn data Hup Hv).
      rewrite (store_outcome cfg os fs _ data (stored_name_not_dotdot _ _)).
      destruct (mkdir_error os); [discriminate|].
      destruct (st_type <$> _) as [[]|]; try discriminate;
        destruct (open_error os); try discriminate;
        destruct (write_error os) as [[? ?]|]; try discriminate;
        intros _; repeat split; reflexivity. }
    destruct Hos as (H1 & H2 & H3 & H4).
    split; [exact H1|]. split; [exact H2|]. split; [exact H3|].
    split; [|exact Hentry]. rewrite H4, stored_name_path. reflexivity.
Qed.

(** X3 at the upload of [report.pdf]. *)
Lemma X3_report_pdf_is_stored :
  exists f fn data,
    upload_of (multipart [file_part (py "report.pdf") [x25; x50; x44; x46]]) f /\
    value f = FileValue fn data /\
    entry (snd (do_POST default_config (quiet_os jan15)
                  (multipart [file_part (py "report.pdf") [x25; x50; x44; x46]])
                  empty_fs))
      (stored_name jan15 fn) =
      Some {| st_type := Regular; content := data; st_mtime := 0 |}.
Proof.
  destruct (X3_success_means_the_payload_is_stored default_config (quiet_os jan15)
              (multipart [file_part (py "report.pdf") [x25; x50; x44; x46]])
              empty_fs eq_refl)
    as (f & fn & data & H1 & H2 & _ & _ & _ & _ & H3).
  exists f, fn, data. split; [exact H1|]. split; [exact H2|exact H3].
Defined.

(** X6: a POST answered with status 400 or 404 has changed nothing in
    the file system: the storage directory is not even made. *)
Theorem X6_rejected_requests_change_nothing
    (cfg : config) (os : os_env) (req : request) (fs : filesystem) :
  status (fst (do_POST cfg os req fs)) = 400 \/
  status (fst (do_POST cfg os req fs)) = 404 ->
  snd (do_POST cfg os req fs) = fs.
Proof.
  destruct (str_eqb (path req) (py "/upload")) eqn:Hpath;
    [|intros _; unfold do_POST; by rewrite Hpath].
  apply bool_decide_eq_true in Hpath.
  destruct (do_POST_rejected_or_upload cfg os req fs Hpath)
    as [(msg & st & Hst & ->)|(f & fn & data & Hup & Hv)]; [reflexivity|].
  rewrite (do_POST_file_part cfg os req fs f fn data Hup Hv).
  rewrite (store_outcome cfg os fs _ data (stored_name_not_dotdot _ _)).
  destruct (mkdir_error os); [reflexivity|].
  destruct (st_type <$> _) as [[]|];
    try (intros [?|?]; discriminate);
    destruct (open_error os); try (intros [?|?]; discriminate);
    destruct (write_error os) as [[? ?]|]; intros [?|?]; discriminate.
Qed.

(** X6 at a JSON body posted to [/upload]. *)
Lemma X6_json_body_changes_nothing :
  snd (do_POST default_config (quiet_os jan15)
         {| path := py "/upload";
            header_content_type := Some (py "application/json");
            form_data := Ok {| fields := None |} |} shared_fs) = shared_fs.
Proof.
  apply (X6_rejected_requests_change_nothing default_config (quiet_os jan15)
           {| path := py "/upload";
              header_content_type := Some (py "application/json");
              form_data := Ok {| fields := None |} |} shared_fs).
  left. reflexivity.
Defined.

(** X1: the routes are compared with the whole request path: a path
    that continues [/files] or [/upload] (a query string, a trailing
    slash) is unknown, as is [/upload] for GET and [/files] for POST;
    the answer is 404 with no body and nothing is touched. *)
Theorem X1_routes_are_matched_exactly
    (cfg : config) (os : os_env) (req : request) (fs : filesystem)
    (suffix : list N) :
  suffix <> [] ->
  (path req = py "/files" ++ suffix \/ path req = py "/upload" ++ suffix ->
   do_GET cfg os req fs = (not_found, fs) /\
   do_POST cfg os req fs = (not_found, fs)) /\
  (path req = py "/upload" -> do_GET cfg os req fs = (not_found, fs)) /\
  (path req = py "/files" \/ path req = py "/" ->
   do_POST cfg os req fs = (not_found, fs)).
Proof.
  intros Hs.
  assert (Hne : forall route : list N, route ++ suffix <> route).
  { intros route E. apply Hs. apply (app_inv_head route). by rewrite app_nil_r. }
  unfold do_GET, do_POST, str_eqb. split; [|split].
  - intros [->| ->].
    + rewrite !bool_decide_eq_false_2; [done|..].
      * intros E. apply (Hne (py "/upload")). rewrite <- E at 2.
        discriminate.
      * apply Hne.
      * destruct suffix; discriminate.
    + rewrite !bool_decide_eq_false_2; [done|..].
      * apply Hne.
      * discriminate.
      * destruct suffix; discriminate.
  - intros ->. reflexivity.
  - intros [->| ->]; reflexivity.
Qed.

(** X1 at [/files?limit=5]. *)
Lemma X1_query_string_is_unknown :
  do_GET default_config (quiet_os jan15) (get (py "/files?limit=5")) shared_fs
  = (not_found, shared_fs).
Proof.
  apply (proj1 (X1_routes_are_matched_exactly default_config (quiet_os jan15)
                  (get (py "/files?limit=5")) shared_fs (py "?limit=5")
                  ltac:(discriminate))).
  left. reflexivity.
Defined.





(** X7: after an upload answered with status 200, GET [/files] lists the
    stored file: the array has an object whose [name] is the stored
    name, whose [path] is the path the upload answered, and whose [size]
    is the size string of the length of the payload. *)
Theorem X7_listing_shows_the_uploaded_file
    (cfg : config) (os os' : os_env) (req : request) (fs : filesystem)
    (f : field) (fn : list N) (data : list byte) :
  upload_of req f -> value f = FileValue fn data ->
  status (fst (do_POST cfg os req fs)) = 200 ->
  let fs' := snd (do_POST cfg os req fs) in
  let stored := stored_name (now os) fn in
  exists files : list json,
    do_GET cfg os' (get (py "/files")) fs' = (send_json (JList files) 200, fs') /\
    JDict
      [(py "name", JStr stored);
       (py "path", JStr (path_str (truediv (UPLOAD_DIR cfg) stored)));
       (py "size", JStr (size_str (N.of_nat (length data))));
       (py "time",
        JStr (strftime (py "%Y-%m-%d %H:%M:%S")
                (fromtimestamp os' (write_mtime os))))] ∈ files.
Proof.
  intros Hup Hv Hok fs' stored.
  pose proof (upload_succeeded cfg os req fs f fn data Hup Hv Hok) as Hentry.
  exists (List.map (file_entry cfg os') (listed fs')). split; [reflexivity|].
  apply list_elem_of_In, in_map_iff.
  exists (stored, {| st_type := Regular; content := data;
                     st_mtime := write_mtime os |}).
  split.
  - unfold file_entry, stored. cbn [fst snd st_size content st_mtime].
    by rewrite stored_name_path.
  - apply list_elem_of_In, listed_elem. split; [exact Hentry|reflexivity].
Qed.

(** X7 at the upload of [report.pdf]. *)
Lemma X7_report_pdf_is_listed :
  exists files : list json,
    do_GET default_config (quiet_os jan15) (get (py "/files"))
      (snd (do_POST default_config (quiet_os jan15)
              (multipart [file_part (py "report.pdf") [x25; x50; x44; x46]])
              empty_fs))
    = (send_json (JList files) 200,
       snd (do_POST default_config (quiet_os jan15)
              (multipart [file_part (py "report.pdf") [x25; x50; x44; x46]])
              empty_fs)) /\
    files <> [].
Proof.
  destruct (X7_listing_shows_the_uploaded_file default_config (quiet_os jan15)
              (quiet_os jan15)
              (multipart [file_part (py "report.pdf") [x25; x50; x44; x46]])
              empty_fs (file_part (py "report.pdf") [x25; x50; x44; x46])
              (py "report.pdf") [x25; x50; x44; x46]
              (multipart_upload_of
                 (file_part (py "report.pdf") [x25; x50; x44; x46]) eq_refl)
              eq_refl eq_refl) as (files & H1 & H2).
  exists files. split; [exact H1|]. intros ->. apply elem_of_nil in H2. exact H2.
Defined.

(* --------------------------------------------------------------------- *)
(** ** More on the stored name *)
(* --------------------------------------------------------------------- *)

Lemma sanitize_fixed (s : list N) :
  (forall c, c ∈ s -> kept c = true) -> sanitize s = s.
Proof.
  intros H. rewrite sanitize_map. rewrite <- (map_id s) at 2.
  apply map_ext_in. intros c Hc. by rewrite H by (by apply list_elem_of_In).
Qed.

Lemma sanitize_app (a b : list N) : sanitize (a ++ b) = sanitize a ++ sanitize b.
Proof. rewrite !sanitize_map. apply map_app. Qed.

Lemma kept_digits (c : N) : 48 <= c <= 57 -> kept c = true.
Proof.
  intros [H1 H2].
  assert (Hc : c < 128) by lia.
  apply (below_cases 128
           (fun c => if (48 <=? c) && (c <=? 57) then kept c else true)) in Hc;
    [|vm_compute; reflexivity].
  destruct (N.leb_spec 48 c); [|lia]. destruct (N.leb_spec c 57); [|lia].
  exact Hc.
Qed.

Lemma stored_name_kept (clock : datetime) (f : list N) (c : N) :
  c ∈ stored_name clock f -> kept c = true.
Proof.
  intros H. apply add_timestamp_elem in H as [H|[->|H]].
  - by apply sanitize_elem in H.
  - reflexivity.
  - apply timestamp_chars in H as [H| ->]; [by apply kept_digits|reflexivity].
Qed.

(** X8: two uploads are stored under the same name exactly when their
    sanitized file names are equal and their timestamps are equal; file
    names that sanitize differently never meet, whatever the times. *)
Theorem X8_stored_names_meet_only_on_same_name_and_second
    (d1 d2 : datetime) (f1 f2 : list N) :
  stored_name d1 f1 = stored_name d2 f2 <->
  sanitize f1 = sanitize f2 /\ timestamp d1 = timestamp d2.
Proof.
  split.
  - apply stored_name_inj.
  - intros [Hf Hd]. unfold stored_name. by rewrite !add_timestamp_eq, Hf, Hd.
Qed.

(** X9: a stored name holds only characters the sanitizer keeps (among
    the ASCII characters: letters, digits, underscore, hyphen and dot),
    so it comes back unchanged from the sanitizer. *)
Theorem X9_stored_names_hold_only_kept_characters
    (clock : datetime) (f : list N) :
  Forall (fun c => kept c = true /\ (c < 128 -> ascii_safe c = true))
    (stored_name clock f) /\
  sanitize (stored_name clock f) = stored_name clock f.
Proof.
  split.
  - apply Forall_forall. intros c Hc. apply stored_name_kept in Hc.
    split; [exact Hc|]. intros Hlt. by rewrite <- kept_ascii.
  - apply sanitize_fixed, stored_name_kept.
Qed.

(** X10: sanitizing a sanitized name changes nothing. *)
Theorem X10_sanitize_is_idempotent (s : list N) :
  sanitize (sanitize s) = sanitize s.
Proof. apply sanitize_fixed. intros c. apply sanitize_elem. Qed.


Lemma only_dots_of_repeat (k : nat) : only_dots (repeat (ch ".") k) = true.
Proof. induction k as [|k IH]; [reflexivity|exact IH]. Qed.

(** A name whose dots all lead it splits, at its last dot, into dots. *)
Lemma leading_dots_split (k : nat) (rest a r : list N) :
  ch "." ∉ rest -> ch "." ∉ r ->
  repeat (ch ".") k ++ rest = a ++ ch "." :: r -> only_dots a = true.
Proof.
  intros Hrest Hr E. destruct k as [|k].
  - destruct Hrest. cbn [repeat app] in E. rewrite E, elem_of_app. right.
    apply list_elem_of_here.
  - cbn [repeat] in E. rewrite repeat_cons, <- app_assoc in E. cbn [app] in E.
    apply last_dot_unique in E as [<- _]; [|done..]. apply only_dots_of_repeat.
Qed.

Lemma underscore_not_only_dots (a b : list N) :
  only_dots (a ++ py "_" ++ b) = false.
Proof.
  induction a as [|x a IH]; [reflexivity|]. cbn [app only_dots].
  by destruct (x =? ch ".").
Qed.

(** [splitext] on a name that splits at its last dot. *)
Lemma splitext_at_last_dot (a r : list N) :
  ch "/" ∉ a ++ ch "." :: r -> ch "." ∉ r -> only_dots a = false ->
  splitext (a ++ ch "." :: r) = (a, ch "." :: r).
Proof.
  intros Hsep Hr Ha.
  destruct (splitext_spec _ Hsep) as [(k & rest & E & Hrest & _)|(a' & r' & E & Hr' & _ & ->)].
  - symmetry in E. apply leading_dots_split in E; [congruence|done..].
  - apply last_dot_unique in E as [-> ->]; done.
Qed.

(** [splitext] on a name whose dots all lead it. *)
Lemma splitext_leading_dots (k : nat) (rest : list N) :
  ch "/" ∉ rest -> ch "." ∉ rest ->
  splitext (repeat (ch ".") k ++ rest) = (repeat (ch ".") k ++ rest, []).
Proof.
  intros Hsep Hrest.
  assert (Hs : ch "/" ∉ repeat (ch ".") k ++ rest).
  { rewrite not_elem_of_app. split; [|done].
    intros H. apply list_elem_of_In, repeat_spec in H. discriminate. }
  destruct (splitext_spec _ Hs) as [(_ & _ & _ & _ & ->)|(a' & r' & E & Hr' & Ha' & _)];
    [reflexivity|].
  apply leading_dots_split in E; [congruence|done..].
Qed.

(** X12: the stored name keeps the extension: split again, it gives the
    base of the sanitized name followed by the underscore and the
    timestamp, and the extension of the sanitized name. *)
Theorem X12_stored_name_keeps_the_extension (clock : datetime) (f : list N) :
  splitext (stored_name clock f) =
    (fst (splitext (sanitize f)) ++ py "_" ++ timestamp clock,
     snd (splitext (sanitize f))).
Proof.
  pose proof (stored_name_no_separator clock f) as Hsep. revert Hsep.
  unfold stored_name. rewrite add_timestamp_eq.
  destruct (splitext_spec (sanitize f) (sanitize_no_separator f))
    as [(k & rest & E & Hrest & ->)|(a & r & E & Hr & Ha & ->)]; cbn [fst snd].
  - rewrite app_nil_r, E, <- app_assoc. intros Hsep.
    apply splitext_leading_dots.
    + rewrite not_elem_of_app in Hsep. apply Hsep.
    + rewrite !not_elem_of_app. split; [done|]. split; [|apply timestamp_no_dot].
      intros H. apply list_elem_of_singleton in H. discriminate.
  - rewrite !app_assoc. rewrite <- (app_assoc a). intros Hsep.
    apply splitext_at_last_dot; [exact Hsep|exact Hr|].
    apply underscore_not_only_dots.
Qed.

(* --------------------------------------------------------------------- *)
(** ** More on the size string *)
(* --------------------------------------------------------------------- *)

(** X13: the sizes from 1048525 up to the last one below 1024 * 1024 are
    shown in KB, rounded up to ["1024.0 KB"]. *)
Theorem X13_sizes_just_below_a_mebibyte_show_1024_KB (size : N) :
  1048525 <= size < 1024 * 1024 -> size_str size = py "1024.0 KB".
Proof.
  intros [H1 H2]. unfold size_str.
  destruct (N.ltb_spec size 1024); [lia|].
  destruct (N.ltb_spec size (1024 * 1024)); [|lia].
  assert (Hr : round_half_even (10 * size) 1024 = 10240).
  { unfold round_half_even.
    pose proof (N.div_mod (10 * size) 1024 ltac:(discriminate)) as E.
    pose proof (N.mod_upper_bound (10 * size) 1024 ltac:(discriminate)) as Hm.
    set (q := 10 * size / 1024) in *. set (r := (10 * size) mod 1024) in *.
    clearbody q r.
    assert (q = 10239) by lia. subst q.
    destruct (N.ltb_spec (2 * r) 1024); [lia|].
    destruct (N.ltb_spec 1024 (2 * r)); [reflexivity|lia]. }
  unfold format_1f. rewrite Hr. reflexivity.
Qed.

(** X13 at the last size below 1024 * 1024. *)
Lemma X13_one_byte_below_a_mebibyte : size_str 1048575 = py "1024.0 KB".
Proof.
  apply X13_sizes_just_below_a_mebibyte_show_1024_KB. split; [|reflexivity].
  discriminate.
Defined.

(* --------------------------------------------------------------------- *)
(** ** The script of the page and the handler *)
(* --------------------------------------------------------------------- *)

Lemma string_of_uint_digits (u : Decimal.uint) :
  Forall (fun c => 48 <= c <= 57) (py (NilEmpty.string_of_uint u)).
Proof.
  induction u; cbn; constructor; try exact IHu; cbn; lia.
Qed.

Lemma decimal_digits (n : N) : Forall (fun c => 48 <= c <= 57) (decimal n).
Proof.
  unfold decimal, NilZero.string_of_uint.
  destruct (N.to_uint n) eqn:E; try (rewrite <- E; apply string_of_uint_digits).
  repeat constructor; cbn; lia.
Qed.

Lemma clipboard_prefix_kept (date_now : N) (c : N) :
  c ∈ py "clipboard_" ++ decimal date_now -> kept c = true /\ c <> ch ".".
Proof.
  rewrite elem_of_app. intros [H|H].
  - cbn in H. repeat (apply elem_of_cons in H as [->|H]; [by split|]).
    by apply elem_of_nil in H.
  - pose proof (decimal_digits date_now) as Hd. rewrite Forall_forall in Hd.
    apply Hd in H. split; [by apply kept_digits|]. intros ->. cbn in H. lia.
Qed.

Lemma sanitize_no_new_dot (s : list N) : ch "." ∉ s -> ch "." ∉ sanitize s.
Proof.
  intros Hs H. rewrite sanitize_map in H. apply list_elem_of_In, in_map_iff in H.
  destruct H as (x & E & Hx). destruct (kept x); [|discriminate].
  subst x. by apply Hs, list_elem_of_In.
Qed.

(** X14: a pasted image of type [image/<sub>], where [sub] is not empty
    and holds no slash and no dot, is sent as
    [clipboard_<Date.now()>.<sub>] and stored as
    [clipboard_<Date.now()>_<timestamp>.<sub sanitized>]. *)
Theorem X14_pasted_image_is_stored_under_clipboard_name
    (sub : list N) (date_now : N) (clock : datetime) :
  sub <> [] -> ch "/" ∉ sub -> ch "." ∉ sub ->
  clipboard_filename (py "image/" ++ sub) date_now =
    Some (py "clipboard_" ++ decimal date_now ++ py "." ++ sub) /\
  stored_name clock (py "clipboard_" ++ decimal date_now ++ py "." ++ sub) =
    py "clipboard_" ++ decimal date_now ++ py "_" ++ timestamp clock ++
    py "." ++ sanitize sub.
Proof.
  intros Hne Hsep Hdot. split.
  - unfold clipboard_filename.
    replace (startswith (py "image/" ++ sub) (py "image/")) with true by reflexivity.
    replace (split (ch "/") (py "image/" ++ sub))
      with (py "image" :: split (ch "/") sub) by reflexivity.
    rewrite (split_no_separator sub Hsep). cbn [nth]. by destruct sub.
  - set (pre := py "clipboard_" ++ decimal date_now).
    assert (Hpre : sanitize pre = pre).
    { apply sanitize_fixed. intros c Hc.
      exact (proj1 (clipboard_prefix_kept date_now c Hc)). }
    assert (Hsan : sanitize (py "clipboard_" ++ decimal date_now ++ py "." ++ sub)
                   = pre ++ ch "." :: sanitize sub).
    { rewrite (app_assoc (py "clipboard_")). fold pre.
      by rewrite sanitize_app, Hpre, (sanitize_app (py ".")). }
    unfold stored_name. rewrite add_timestamp_eq.
    pose proof (sanitize_no_separator
                  (py "clipboard_" ++ decimal date_now ++ py "." ++ sub)) as Hs.
    rewrite Hsan in *.
    rewrite splitext_at_last_dot; [| exact Hs | by apply sanitize_no_new_dot |].
    + cbn [fst snd]. unfold pre. by rewrite <- !app_assoc.
    + unfold pre. reflexivity.
Qed.

(** X14 at a pasted PNG. *)
Lemma X14_pasted_png :
  stored_name jan15 (py "clipboard_" ++ decimal 1705314600000 ++ py "." ++ py "png") =
    py "clipboard_" ++ decimal 1705314600000 ++ py "_" ++ timestamp jan15 ++
    py "." ++ sanitize (py "png").
Proof.
  apply (X14_pasted_image_is_stored_under_clipboard_name (py "png")
           1705314600000 jan15).
  - discriminate.
  - intros H. cbn in H. repeat (apply elem_of_cons in H as [H|H]; [discriminate|]).
    apply elem_of_nil in H. exact H.
  - intros H. cbn in H. repeat (apply elem_of_cons in H as [H|H]; [discriminate|]).
    apply elem_of_nil in H. exact H.
Defined.



(** X16: no POST removes an entry of the storage directory, and none
    changes a subdirectory: an entry that is a subdirectory before the
    request is the same entry after it, whatever the request and however
    the operating system answers. *)
Theorem X16_entries_stay_and_subdirectories_are_untouched
    (cfg : config) (os : os_env) (req : request) (fs : filesystem)
    (n : list N) (node : inode) :
  entry fs n = Some node ->
  is_Some (entry (snd (do_POST cfg os req fs)) n) /\
  (st_type node = Directory -> entry (snd (do_POST cfg os req fs)) n = Some node).
Proof.
  intros Hn. split; [apply do_POST_keeps_entries; by rewrite Hn|].
  intros Hdir.
  destruct (str_eqb (path req) (py "/upload")) eqn:Hpath;
    [|unfold do_POST; by rewrite Hpath].
  apply bool_decide_eq_true in Hpath.
  destruct (do_POST_rejected_or_upload cfg os req fs Hpath)
    as [(msg & st & Hst & ->)|(f & fn & data & Hup & Hv)]; [exact Hn|].
  rewrite (do_POST_file_part cfg os req fs f fn data Hup Hv).
  rewrite (store_outcome cfg os fs _ data (stored_name_not_dotdot _ _)).
  rewrite entry_default.
  destruct (mkdir_error os); [exact Hn|].
  destruct (decide (stored_name (now os) fn = n)) as [->|Hne].
  - rewrite Hn. cbn [fmap option_fmap option_map]. rewrite Hdir.
    cbn [snd]. by rewrite entry_made.
  - assert (Hstored : forall w file,
              entry {| upload_dir :=
                         Some (<[stored_name (now os) fn := file]>
                                 (default ∅ (upload_dir fs)));
                       written_elsewhere := w |} n = Some node).
    { intros w file. unfold entry. cbn [upload_dir].
      by rewrite lookup_insert_ne, entry_default. }
    destruct (st_type <$> _) as [[]|]; cbn [snd]; try (by rewrite entry_made);
      destruct (open_error os); cbn [snd]; try (by rewrite entry_made);
      destruct (write_error os) as [[? ?]|]; cbn [snd]; apply Hstored.
Qed.

(** X16 at a failed upload into the directory with two files and a
    subdirectory. *)
Lemma X16_subdirectory_survives_a_failed_upload :
  entry (snd (do_POST default_config (full_disk_os jan15 0)
                (multipart [file_part (py "sub") [x01]]) shared_fs)) (py "sub")
  = Some {| st_type := Directory; content := []; st_mtime := 30 |}.
Proof.
  apply (proj2 (X16_entries_stay_and_subdirectories_are_untouched default_config
                  (full_disk_os jan15 0) (multipart [file_part (py "sub") [x01]])
                  shared_fs (py "sub")
                  {| st_type := Directory; content := []; st_mtime := 30 |}
                  eq_refl)).
  reflexivity.
Defined.

Lemma startswith_app (needle rest : list N) :
  startswith (needle ++ rest) needle = true.
Proof.
  induction needle as [|c needle IH]; [reflexivity|].
  cbn [app startswith]. by rewrite N.eqb_refl, IH.
Qed.

Lemma str_contains_app (needle before after : list N) :
  str_contains needle (before ++ needle ++ after) = true.
Proof.
  induction before as [|c before IH].
  - cbn [app]. destruct (needle ++ after) eqn:E;
      cbn [str_contains]; rewrite <- E, startswith_app; reflexivity.
  - cbn [app str_contains]. rewrite IH. apply orb_true_r.
Qed.

(** An upload is answered with status 200 or 500. *)
Lemma upload_of_status (cfg : config) (os : os_env) (req : request)
    (fs : filesystem) (f : field) :
  upload_of req f ->
  status (fst (do_POST cfg os req fs)) = 200 \/
  status (fst (do_POST cfg os req fs)) = 500.
Proof.
  intros Hup. destruct (value f) as [fn data|text] eqn:Hv.
  - rewrite (do_POST_file_part cfg os req fs f fn data Hup Hv).
    rewrite (store_outcome cfg os fs _ data (stored_name_not_dotdot _ _)).
    destruct (mkdir_error os); [by right|].
    destruct (st_type <$> _) as [[]|]; try (by right);
      destruct (open_error os); try (by right);
      destruct (write_error os) as [[? ?]|]; try (by right); by left.
  - right. by rewrite (do_POST_text_part cfg os req fs f text Hup Hv).
Qed.

(** A POST to [/upload] that passes the test of the content type is
    answered ["No file provided"] with status 400, or with status 200 or
    500. *)
Lemma do_POST_multipart_cases (cfg : config) (os : os_env) (req : request)
    (fs : filesystem) :
  path req = py "/upload" ->
  str_contains (py "multipart/form-data")
    (default [] (header_content_type req)) = true ->
  fst (do_POST cfg os req fs) = send_json (failure (py "No file provided")) 400 \/
  status (fst (do_POST cfg os req fs)) = 200 \/
  status (fst (do_POST cfg os req fs)) = 500.
Proof.
  intros Hpath Hct.
  destruct (form_data req) as [form|e] eqn:Hform.
  2:{ right. right. unfold do_POST, upload.
      by rewrite Hpath, str_eqb_refl, Hct, Hform. }
  destruct (fields form) as [l|] eqn:Hl.
  2:{ right. right.
      unfold do_POST, upload, try_except, bind, lift, FieldStorage_contains.
      by rewrite Hpath, str_eqb_refl, Hct, Hform, Hl. }
  destruct (List.filter (named (py "file")) l) as [|f [|g found]] eqn:Hf.
  - left. unfold do_POST, upload, try_except, bind, lift, FieldStorage_contains.
    by rewrite Hpath, str_eqb_refl, Hct, Hform, Hl, existsb_filter, Hf.
  - right.
    apply (upload_of_status cfg os req fs f).
    split; [done|split; [done|by exists form, l]].
  - right. right.
    unfold do_POST, upload, try_except, bind, lift, FieldStorage_contains,
      FieldStorage_getitem.
    by rewrite Hpath, str_eqb_refl, Hct, Hform, Hl, existsb_filter, Hf.
Qed.

(** X17: the content type is tested for the text [multipart/form-data]
    anywhere in the header: with parameters before it or after it the
    request passes the test and is never answered
    ["Invalid content type"]. *)
Theorem X17_content_type_is_tested_as_a_substring
    (cfg : config) (os : os_env) (req : request) (fs : filesystem)
    (before after : list N) :
  path req = py "/upload" ->
  header_content_type req = Some (before ++ py "multipart/form-data" ++ after) ->
  fst (do_POST cfg os req fs) <>
    send_json (failure (py "Invalid content type")) 400.
Proof.
  intros Hpath Hh.
  assert (Hct : str_contains (py "multipart/form-data")
                  (default [] (header_content_type req)) = true)
    by (rewrite Hh; apply str_contains_app).
  destruct (do_POST_multipart_cases cfg os req fs Hpath Hct) as [H|[H|H]];
    intros E; rewrite E in H; discriminate.
Qed.

(** X17 at a header that names the boundary first. *)
Lemma X17_boundary_before_the_media_type :
  fst (do_POST default_config (quiet_os jan15)
         {| path := py "/upload";
            header_content_type :=
              Some (py "boundary=x; " ++ py "multipart/form-data" ++ []);
            form_data := Ok {| fields := Some [] |} |} empty_fs)
  <> send_json (failure (py "Invalid content type")) 400.
Proof.
  apply (X17_content_type_is_tested_as_a_substring default_config (quiet_os jan15)
           {| path := py "/upload";
              header_content_type :=
                Some (py "boundary=x; " ++ py "multipart/form-data" ++ []);
              form_data := Ok {| fields := Some [] |} |} empty_fs
           (py "boundary=x; ") [] eq_refl eq_refl).
Defined.
